(** * Massachusetts lease analyzer (document_analysis.py)

  A shallow embedding of the input normalizer [process_uploaded_file],
  the analysis client [analyze_lease_document], the page function [main]
  and the module's start-up code, with the statements of the design
  specification proved or refuted over it.

  Conventions.
  - Python [bytes] are [list byte].
  - Python [str] is a Rocq [string] holding the text's UTF-8 encoding;
    concatenation and [startswith] on texts are concatenation and prefix
    on their encodings.
  - An effectful function returns its outcome together with the events it
    emitted, in order (module [Eff]). *)

From Stdlib Require Import NArith ZArith Zify Lia Ascii String List.
From Stdlib Require Import Strings.Byte.
From stdpp Require Import gmap strings.
Import ListNotations.

Local Open Scope string_scope.
Local Open Scope list_scope.

(* ===================================================================== *)
(** * Library functions the program calls *)
(* ===================================================================== *)

(** ** [base64.b64encode] / [base64.b64decode]

  The standard library's Base64 codec (RFC 4648, section 4, standard
  alphabet, with padding): every group of three octets is read as one
  24-bit number and written as four 6-bit digits; a final group of one or
  two octets is zero-extended and closed with [=] signs. *)
Module Base64.

Definition alphabet : list byte :=
  list_byte_of_string
    "ABCDEFGHIJKLMNOPQRSTUVWXYZabcdefghijklmnopqrstuvwxyz0123456789+/".

Definition pad : byte := "="%byte.

(** The character of a 6-bit digit. *)
Definition digit (i : N) : byte := nth (N.to_nat i) alphabet pad.

Fixpoint index_from (c : byte) (tbl : list byte) (i : N) : option N :=
  match tbl with
  | [] => None
  | d :: tbl' => if Byte.eqb c d then Some i else index_from c tbl' (N.succ i)
  end.

(** The 6-bit digit of a character of the alphabet. *)
Definition value (c : byte) : option N := index_from c alphabet 0%N.

(** The 24-bit number of three octets and its inverse. *)
Definition join3 (a b c : byte) : N :=
  (Byte.to_N a * 65536 + Byte.to_N b * 256 + Byte.to_N c)%N.

Definition octet (n : N) : option byte := Byte.of_N (n mod 256).

(** The 24-bit number of four digits. *)
Definition join4 (s1 s2 s3 s4 : N) : N :=
  (((s1 * 64 + s2) * 64 + s3) * 64 + s4)%N.

Definition digit_at (n : N) (k : N) : byte := digit ((n / 64 ^ k) mod 64).

Fixpoint b64encode (s : list byte) : list byte :=
  match s with
  | [] => []
  | [a] =>
      let n := join3 a "000"%byte "000"%byte in
      [digit_at n 3; digit_at n 2; pad; pad]
  | [a; b] =>
      let n := join3 a b "000"%byte in
      [digit_at n 3; digit_at n 2; digit_at n 1; pad]
  | a :: b :: c :: rest =>
      let n := join3 a b c in
      digit_at n 3 :: digit_at n 2 :: digit_at n 1 :: digit_at n 0
        :: b64encode rest
  end.

Definition octets3 (n : N) : option (list byte) :=
  a ← octet (n / 65536); b ← octet (n / 256); c ← octet n; Some [a; b; c].

(** A full group of four digits. *)
Definition decode4 (c1 c2 c3 c4 : byte) : option (list byte) :=
  s1 ← value c1; s2 ← value c2; s3 ← value c3; s4 ← value c4;
  octets3 (join4 s1 s2 s3 s4).

(** The last group, which may carry one or two pad signs. *)
Definition decode_last (c1 c2 c3 c4 : byte) : option (list byte) :=
  if Byte.eqb c4 pad then
    if Byte.eqb c3 pad then
      s1 ← value c1; s2 ← value c2;
      a ← octet (join4 s1 s2 0 0 / 65536); Some [a]
    else
      s1 ← value c1; s2 ← value c2; s3 ← value c3;
      l ← octets3 (join4 s1 s2 s3 0); Some (take 2 l)
  else decode4 c1 c2 c3 c4.

(** Strict decoding: the length is a multiple of four, every character is
    of the alphabet, pad signs stand only at the end. *)
Fixpoint decode_bytes (s : list byte) : option (list byte) :=
  match s with
  | [] => Some []
  | [c1; c2; c3; c4] => decode_last c1 c2 c3 c4
  | c1 :: c2 :: c3 :: c4 :: rest =>
      g ← decode4 c1 c2 c3 c4; t ← decode_bytes rest; Some (g ++ t)
  | _ => None
  end.

(** [base64.b64decode] applied to a text: its ASCII bytes are decoded, in
    the strict reading ([validate=True]).  The default reading first drops
    characters outside the alphabet; on the encoder's output, which holds
    none, both read the same. *)
Definition b64decode (s : string) : option (list byte) :=
  decode_bytes (list_byte_of_string s).

End Base64.

(** ** [bytes.decode('utf-8')]

  Strict UTF-8 decoding.  A text is represented by its UTF-8 encoding, so
  decoding a well-formed byte sequence leaves the bytes as they are and an
  ill-formed one raises [UnicodeDecodeError]. *)
Module Utf8.

Definition between (lo hi : N) (b : byte) : bool :=
  ((lo <=? Byte.to_N b) && (Byte.to_N b <=? hi))%N.

Definition cont : byte -> bool := between 128 191.

(** Well-formed sequences (Unicode, table 3-7). *)
Fixpoint well_formed (s : list byte) : bool :=
  match s with
  | [] => true
  | b0 :: t0 =>
      if between 0 127 b0 then well_formed t0 else
      match t0 with
      | [] => false
      | b1 :: t1 =>
          if between 194 223 b0 then cont b1 && well_formed t1 else
          match t1 with
          | [] => false
          | b2 :: t2 =>
              if between 224 224 b0 then
                between 160 191 b1 && cont b2 && well_formed t2
              else if between 225 236 b0 || between 238 239 b0 then
                cont b1 && cont b2 && well_formed t2
              else if between 237 237 b0 then
                between 128 159 b1 && cont b2 && well_formed t2
              else
              match t2 with
              | [] => false
              | b3 :: t3 =>
                  if between 240 240 b0 then
                    between 144 191 b1 && cont b2 && cont b3 && well_formed t3
                  else if between 241 243 b0 then
                    cont b1 && cont b2 && cont b3 && well_formed t3
                  else if between 244 244 b0 then
                    between 128 143 b1 && cont b2 && cont b3 && well_formed t3
                  else false
              end
          end
      end
  end.

Definition decode (s : list byte) : option string :=
  if well_formed s then Some (string_of_list_byte s) else None.

End Utf8.

(* ===================================================================== *)
(** * Values, exceptions and effects *)
(* ===================================================================== *)

(** The Python values the two functions can be handed. *)
Inductive pyobj :=
| PyStr (s : string)
| PyBytes (b : list byte)
| PyInt (z : Z)
| PyNone.

(** An instance of [Exception]: its class and [str(e)]. *)
Record pyexc := { exc_class : string; exc_msg : string }.

(** What unwinds the stack: an [Exception], or the script-control signal of
  [st.stop()], which derives from [BaseException] and passes through
  [except Exception]. *)
Inductive signal :=
| Exc (e : pyexc)
| StopScript.

(** A decoded raster image as the image library reports it.  It defines
  neither [__bool__] nor [__len__], so it is always truthy. *)
Record Image := { img_format : string; img_width : N; img_height : N }.

(** The upload widget's file object: a byte buffer with a read position, a
  name and the declared content type. *)
Record UploadedFile := {
  name : string;
  type : pyobj;
  data : list byte;
  pos : nat
}.

Definition getvalue (f : UploadedFile) : list byte := data f.

Definition seek (f : UploadedFile) (p : nat) : UploadedFile :=
  {| name := name f; type := type f; data := data f; pos := p |}.

(** What a reader of the file object sees: the bytes from the position on. *)
Definition unread (f : UploadedFile) : list byte := drop (pos f) (data f).

(** The request of [client.chat.completions.create]. *)
Inductive content_part :=
| text_part (text : string)
| image_url_part (url : string).

Record message := { role : string; content : list content_part }.

Record Request := {
  model : string;
  messages : list message;
  max_tokens : Z
}.

(** The response: each choice carries [message.content], a text or [None]. *)
Record choice := { message_content : option string }.
Record Response := { choices : list choice }.

(** The client object built at start-up. *)
Record OpenAI := { api_key : option string }.

(** Observable effects: what the page shows, and the requests sent out. *)
Inductive event :=
| UiTitle (body : string)
| UiWrite (body : string)
| UiWarning (body : string)
| UiError (body : string)
| UiSuccess (body : string)
| UiMarkdown (body : string)
| UiImage (img : Image) (caption : string)
| UiSpinner (text : string)
| UiRadio (label : string) (options : list string)
| UiFileUploader (label : string) (types : list string)
| UiCameraInput (label : string)
| UiStop
| ChatCreate (client : OpenAI) (req : Request).

(** ** The effect monad

  A computation yields its outcome and the events it emitted in order. *)
Module Eff.

Inductive outcome (A : Type) :=
| Ok (a : A)
| Raised (s : signal).
Arguments Ok {A} a.
Arguments Raised {A} s.

Definition M (A : Type) : Type := outcome A * list event.

Definition ret {A} (a : A) : M A := (Ok a, []).

Definition bind {A B} (m : M A) (k : A -> M B) : M B :=
  match m with
  | (Ok a, t) => let (r, t') := k a in (r, t ++ t')
  | (Raised s, t) => (Raised s, t)
  end.

Definition emit (e : event) : M unit := (Ok tt, [e]).

Definition raise {A} (cls msg : string) : M A :=
  (Raised (Exc {| exc_class := cls; exc_msg := msg |}), []).

(** [try: body / except Exception as e: handler e]. *)
Definition try_except {A} (body : M A) (handler : pyexc -> M A) : M A :=
  match body with
  | (Raised (Exc e), t) => let (r, t') := handler e in (r, t ++ t')
  | other => other
  end.

Definition result {A} (m : M A) : outcome A := fst m.
Definition trace {A} (m : M A) : list event := snd m.

End Eff.
Import Eff.

Notation "x <- m ;; k" := (Eff.bind m (fun x => k))
  (at level 100, m at next level, right associativity).
Notation "m ;; k" := (Eff.bind m (fun _ => k))
  (at level 100, right associativity).

(* ===================================================================== *)
(** * The program *)
(* ===================================================================== *)

Definition dq : string := String (ascii_of_nat 34) EmptyString.

Module Texts.

Definition prompt : string :=
  "
        You are an expert paralegal specializing in Massachusetts landlord-tenant law.
        Your task is to analyze the provided lease agreement and identify any clauses
        that are illegal or unenforceable under Massachusetts General Laws.

        Please carefully review the document and list any problematic clauses.
        For each illegal clause you find, provide the following:
        1.  **Clause Identification**: Quote the exact illegal phrase or sentence from the lease.
        2.  **Explanation**: Clearly explain in simple, non-legal language why the clause is illegal in Massachusetts.
        3.  **Legal Reference**: Cite the specific Massachusetts General Law (MGL) chapter and section that makes the clause illegal.

        Common illegal clauses to look for in Massachusetts include, but are not limited to:
        - Requiring a tenant to pay for all repairs, regardless of fault.
        - Waiving the tenant's right to a jury trial.
        - Requiring the tenant to pay for utility costs for common areas without a separate meter.
        - Imposing a penalty for late rent that exceeds what is allowed by law (MGL c. 186, s. 15B).
        - Allowing the landlord to enter the premises without reasonable notice.
        - Requiring the tenant to pay rent in advance for more than the first month and a security deposit.

        If you do not find any illegal clauses, please state that " +:+ dq +:+
  "Based on this analysis, no illegal clauses were identified in the document." +:+ dq +:+
  "

        Present your findings in a clear, organized format using markdown.
        ".

Definition disclaimer : string :=
  "
        **Disclaimer:** This tool provides an automated analysis and does not constitute legal advice.
        The information provided may not be complete or accurate. You should consult with a qualified
        legal professional for advice on your specific situation.
        ".

Definition guidance : string :=
  "This tool currently only supports image files (JPEG, PNG). Please upload an image of your lease.".

Definition key_missing : string :=
  "OpenAI API key not found. Please set the 'OPENAI_API_KEY' environment variable.".

Definition cannot_process : string :=
  "Could not process the uploaded file. Please ensure it is a valid image.".

End Texts.

(** Truthiness of a value that is a text or [None]. *)
Definition truthy (v : option string) : bool :=
  match v with
  | Some s => negb (String.eqb s "")
  | None => false
  end.

(** What the user did on the page in this run: the radio selection and the
  value of either input widget. *)
Record Widgets := {
  radio : string;
  file_uploader : option UploadedFile;
  camera_input : option UploadedFile
}.

(** ** Streamlit calls *)
Module st.
Definition title (s : string) : M unit := emit (UiTitle s).
Definition write (s : string) : M unit := emit (UiWrite s).
Definition warning (s : string) : M unit := emit (UiWarning s).
Definition error (s : string) : M unit := emit (UiError s).
Definition success (s : string) : M unit := emit (UiSuccess s).
Definition markdown (s : string) : M unit := emit (UiMarkdown s).
Definition image (i : Image) (caption : string) : M unit :=
  emit (UiImage i caption).
Definition spinner (s : string) : M unit := emit (UiSpinner s).
Definition stop : M unit := (Raised StopScript, [UiStop]).
Definition radio (ui : Widgets) (label : string) (options : list string)
  : M string :=
  emit (UiRadio label options);; ret (radio ui).
Definition file_uploader (ui : Widgets) (label : string)
  (types : list string) : M (option UploadedFile) :=
  emit (UiFileUploader label types);; ret (file_uploader ui).
Definition camera_input (ui : Widgets) (label : string)
  : M (option UploadedFile) :=
  emit (UiCameraInput label);; ret (camera_input ui).
End st.

(** ** Attribute and library calls on Python values *)

(** [v.startswith(p)] with [p] a text. *)
Definition startswith (v : pyobj) (p : string) : M bool :=
  match v with
  | PyStr s => ret (String.prefix p s)
  | PyBytes _ =>
      raise "TypeError"
        "startswith first arg must be bytes or a tuple of bytes, not str"
  | PyInt _ =>
      raise "AttributeError" "'int' object has no attribute 'startswith'"
  | PyNone =>
      raise "AttributeError" "'NoneType' object has no attribute 'startswith'"
  end.

(** [base64.b64encode(v)]. *)
Definition b64encode (v : pyobj) : M (list byte) :=
  match v with
  | PyBytes b => ret (Base64.b64encode b)
  | PyStr _ => raise "TypeError" "a bytes-like object is required, not 'str'"
  | PyInt _ => raise "TypeError" "a bytes-like object is required, not 'int'"
  | PyNone =>
      raise "TypeError" "a bytes-like object is required, not 'NoneType'"
  end.

(** [b.decode('utf-8')]. *)
Definition decode_utf8 (b : list byte) : M string :=
  match Utf8.decode b with
  | Some s => ret s
  | None =>
      raise "UnicodeDecodeError" "'utf-8' codec can't decode bytes"
  end.

(** The text a value contributes to an f-string.  Only texts reach one in
    this program ([startswith] has raised on every other value before), so
    the renderings of the other values are left out of the model. *)
Definition format (v : pyobj) : M string :=
  match v with
  | PyStr s => ret s
  | _ => raise "TypeError" "unsupported format operand"
  end.

(** [l[0]]. *)
Definition first {A} (l : list A) : M A :=
  match l with
  | x :: _ => ret x
  | [] => raise "IndexError" "list index out of range"
  end.

Section Program.

(** The image library: [Image.open] on the bytes it reads either yields an
    image or raises. *)
Variable Image_open : list byte -> pyexc + Image.

(** The remote service: a request sent through a client either yields a
    response or raises (transport, authentication or service error). *)
Variable remote : OpenAI -> Request -> pyexc + Response.

Definition open_image (f : UploadedFile) : M Image :=
  match Image_open (unread f) with
  | inr img => ret img
  | inl e => (Raised (Exc e), [])
  end.

(** [client.chat.completions.create(...)]: one request goes out. *)
Definition chat_completions_create (client : OpenAI) (req : Request)
  : M Response :=
  emit (ChatCreate client req);;
  match remote client req with
  | inr r => ret r
  | inl e => (Raised (Exc e), [])
  end.

Definition analyze_lease_document (client : OpenAI)
  (file_bytes mime_type : pyobj) : M (option string) :=
  let prompt := Texts.prompt in
  try_except
    (image_type <- startswith mime_type "image/";;
     if negb image_type then ret (Some Texts.guidance)
     else
       encoded <- b64encode file_bytes;;
       base64_image <- decode_utf8 encoded;;
       mime_text <- format mime_type;;
       response <- chat_completions_create client
         {| model := "gpt-5-nano";
            messages :=
              [ {| role := "user";
                   content :=
                     [ text_part prompt;
                       image_url_part
                         ("data:" +:+ mime_text +:+ ";base64,"
                            +:+ base64_image) ] |} ];
            max_tokens := 2000 |};;
       c <- first (choices response);;
       ret (message_content c))
    (fun e =>
       st.error ("An error occurred during analysis: " +:+ exc_msg e);;
       ret None).

Definition process_uploaded_file (uploaded_file : UploadedFile)
  : M (list byte * pyobj * option Image) :=
  let file_bytes := getvalue uploaded_file in
  let mime_type := type uploaded_file in
  let preview_image := None in
  preview_image <-
    try_except
      (let uploaded_file := seek uploaded_file 0 in
       img <- open_image uploaded_file;;
       ret (Some img))
      (fun _ => ret preview_image);;
  ret (file_bytes, mime_type, preview_image).

Definition main (client : OpenAI) (ui : Widgets) : M unit :=
  st.title "Massachusetts Lease Agreement Analyzer";;
  st.write "This tool helps identify potentially illegal clauses in a Massachusetts residential lease agreement that may be harmful to tenants.";;
  st.write "Upload a clear image (JPEG/PNG) of your lease pages, or use your camera to capture them.";;
  st.warning Texts.disclaimer;;
  input_method <-
    st.radio ui "Choose input method:" ["Upload an Image File"; "Use Camera"];;
  uploaded_file <-
    (if String.eqb input_method "Upload an Image File" then
       st.file_uploader ui "Choose an image file" ["jpg"; "jpeg"; "png"]
     else st.camera_input ui "Take a picture of the lease page");;
  match uploaded_file with
  | Some uploaded_file =>
      r <- process_uploaded_file uploaded_file;;
      let '(file_bytes, mime_type, preview_image) := r in
      match preview_image with
      | Some preview_image =>
          st.image preview_image "Image to be Analyzed";;
          st.spinner "Analyzing your lease document... This may take a moment.";;
          analysis_result <-
            analyze_lease_document client (PyBytes file_bytes) mime_type;;
          if truthy analysis_result then
            st.success "Analysis Complete";;
            match analysis_result with
            | Some text => st.markdown text
            | None => ret tt
            end
          else ret tt
      | None => st.error Texts.cannot_process
      end
  | None => ret tt
  end.

(** ** Start-up: the module's top-level statements *)

(** [load_dotenv()]: the variables of the [.env] file are added to the
    process environment, those already set keep their value. *)
Definition load_dotenv (dotenv environ : gmap string string)
  : gmap string string :=
  environ ∪ dotenv.

Definition getenv (environ : gmap string string) (key : string)
  : option string :=
  environ !! key.

(** The script as the runtime executes it: [environ] is the process
    environment, [dotenv] the content of the [.env] file (empty when
    there is none), [module_name] the value of [__name__]. *)
Definition script (environ dotenv : gmap string string)
  (module_name : string) (ui : Widgets) : M unit :=
  let environ := load_dotenv dotenv environ in
  let OPENAI_API_KEY := getenv environ "OPENAI_API_KEY" in
  (if negb (truthy OPENAI_API_KEY) then
     st.error Texts.key_missing;;
     st.stop
   else ret tt);;
  let client := {| api_key := OPENAI_API_KEY |} in
  if String.eqb module_name "__main__" then main client ui else ret tt.

End Program.

(* ===================================================================== *)
(** * Observations on traces and requests *)
(* ===================================================================== *)

(** The requests sent to the remote service, in order. *)
Fixpoint requests (t : list event) : list Request :=
  match t with
  | [] => []
  | ChatCreate _ req :: t' => req :: requests t'
  | _ :: t' => requests t'
  end.

Definition part_urls (p : content_part) : list string :=
  match p with
  | image_url_part url => [url]
  | text_part _ => []
  end.

(** The [image_url.url] entries of a request. *)
Definition image_urls (req : Request) : list string :=
  concat (map (fun m => concat (map part_urls (content m))) (messages req)).

(** Events that present the outcome of an analysis to the user. *)
Definition presents_outcome (e : event) : bool :=
  match e with
  | UiSuccess _ | UiMarkdown _ | UiError _ => true
  | _ => false
  end.

(** The event that renders the analysis result. *)
Definition renders_result (e : event) : bool :=
  match e with
  | UiMarkdown _ => true
  | _ => false
  end.

(** The file of the input path the user selected. *)
Definition uploaded (ui : Widgets) : option UploadedFile :=
  if String.eqb (radio ui) "Upload an Image File" then file_uploader ui
  else camera_input ui.

(** The same page state with neither widget holding a file. *)
Definition no_upload (ui : Widgets) : Widgets :=
  {| radio := radio ui; file_uploader := None; camera_input := None |}.

(** Bytes that are all ASCII characters. *)
Definition ascii_only (s : list byte) : Prop :=
  Forall (fun b => Utf8.between 0 127 b = true) s.

(** The text form of the base64 encoding of [b]. *)
Definition base64_text (b : list byte) : string :=
  string_of_list_byte (Base64.b64encode b).

(** The report the analysis client shows for a caught exception. *)
Definition reported (e : pyexc) : event :=
  UiError ("An error occurred during analysis: " +:+ exc_msg e).

(** The ways a call of the analysis client can go, by what it returned and
    emitted: the guidance text; an exception before any request; a request
    on which the service raised; a response without choices; a response. *)
Inductive analysis_path (remote : OpenAI -> Request -> pyexc + Response)
  (client : OpenAI) : M (option string) -> Prop :=
| path_guidance :
    analysis_path remote client (Ok (Some Texts.guidance), [])
| path_rejected (e : pyexc) :
    analysis_path remote client (Ok None, [reported e])
| path_raised (req : Request) (e : pyexc) :
    max_tokens req = 2000%Z ->
    remote client req = inl e ->
    analysis_path remote client (Ok None, [ChatCreate client req; reported e])
| path_no_choice (req : Request) :
    max_tokens req = 2000%Z ->
    remote client req = inr {| choices := [] |} ->
    analysis_path remote client
      (Ok None,
       [ChatCreate client req;
        reported {| exc_class := "IndexError";
                    exc_msg := "list index out of range" |}])
| path_reply (req : Request) (c : choice) (cs : list choice) :
    max_tokens req = 2000%Z ->
    remote client req = inr {| choices := c :: cs |} ->
    analysis_path remote client
      (Ok (message_content c), [ChatCreate client req]).

(** What the page shows once the preview exists, and what it adds after the
    analysis returned [r]. *)
Definition shown (img : Image) : list event :=
  [UiImage img "Image to be Analyzed";
   UiSpinner "Analyzing your lease document... This may take a moment."].

Definition rendered (r : option string) : list event :=
  match r with
  | Some text =>
      if truthy r then [UiSuccess "Analysis Complete"; UiMarkdown text] else []
  | None => []
  end.

(** ** Concrete runs *)
Module Scenario.

Definition png_magic : list byte := [x89; x50; x4e; x47].

(** A decoder that accepts what starts with the PNG signature. *)
Definition png_decoder (b : list byte) : pyexc + Image :=
  if decide (Byte.to_N <$> take 4 b = Byte.to_N <$> png_magic) then
    inr {| img_format := "PNG"; img_width := 10; img_height := 10 |}
  else
    inl {| exc_class := "UnidentifiedImageError";
           exc_msg := "cannot identify image file" |}.

Definition no_issue : string :=
  "Based on this analysis, no illegal clauses were identified in the document.".

Definition replying (text : option string) (_ : OpenAI) (_ : Request)
  : pyexc + Response :=
  inr {| choices := [ {| message_content := text |} ] |}.

Definition timing_out (_ : OpenAI) (_ : Request) : pyexc + Response :=
  inl {| exc_class := "APITimeoutError"; exc_msg := "Request timed out." |}.

Definition client : OpenAI := {| api_key := Some "sk-test" |}.

Definition valid_png : UploadedFile :=
  {| name := "lease.png"; type := PyStr "image/png";
     data := png_magic ++ [x0d; x0a; x1a; x0a]; pos := 0 |}.

Definition corrupted_png : UploadedFile :=
  {| name := "lease.png"; type := PyStr "image/png";
     data := [xde; xad; xbe; xef; x00]; pos := 0 |}.

Definition picked (f : UploadedFile) : Widgets :=
  {| radio := "Upload an Image File"; file_uploader := Some f;
     camera_input := None |}.

End Scenario.

(** Whether a value is a text, or a byte string. *)
Definition is_text (v : pyobj) : bool :=
  match v with
  | PyStr _ => true
  | _ => false
  end.


(** ** Further concrete runs *)
Module Cases.

(** A file that decodes but is declared with a type that is no image type. *)
Definition mistyped_png : UploadedFile :=
  {| name := "scan.bin"; type := PyStr "application/octet-stream";
     data := data Scenario.valid_png; pos := 3 |}.

(** The valid file under another name, with its read position moved. *)
Definition moved_png : UploadedFile :=
  {| name := "copy.png"; type := PyStr "image/png";
     data := data Scenario.valid_png; pos := 5 |}.

(** The camera path is selected while the file widget still holds a file. *)
Definition camera_with_stale_file : Widgets :=
  {| radio := "Use Camera"; file_uploader := Some Scenario.corrupted_png;
     camera_input := Some Scenario.valid_png |}.

Definition camera_only : Widgets :=
  {| radio := "Use Camera"; file_uploader := None;
     camera_input := Some Scenario.valid_png |}.

Definition nothing_picked : Widgets :=
  {| radio := "Upload an Image File"; file_uploader := None;
     camera_input := Some Scenario.valid_png |}.

(** A service that answers without any choice. *)
Definition no_choice (_ : OpenAI) (_ : Request) : pyexc + Response :=
  inr {| choices := [] |}.

(** A service that answers with two choices. *)
Definition two_choices (_ : OpenAI) (_ : Request) : pyexc + Response :=
  inr {| choices := [ {| message_content := Some "first" |};
                      {| message_content := Some "second" |} ] |}.

End Cases.

(* ===================================================================== *)
(** * Facts about the library functions *)
(* ===================================================================== *)

Module Base64Facts.
Import Base64.

(** The test vectors of RFC 4648, section 10. *)
Example rfc4648_vectors :
  map (fun s => string_of_list_byte (b64encode (list_byte_of_string s)))
      [""; "f"; "fo"; "foo"; "foob"; "fooba"; "foobar"]
  = [""; "Zg=="; "Zm8="; "Zm9v"; "Zm9vYg=="; "Zm9vYmE="; "Zm9vYmFy"].
Proof. reflexivity. Qed.

Example b64decode_vectors :
  map b64decode ["Zm9vYg=="; "Zm9vYmE="; "Zm9v=g=="; "Zm9"; "Zm9v*g=="]
  = [Some (list_byte_of_string "foob"); Some (list_byte_of_string "fooba");
     None; None; None].
Proof. reflexivity. Qed.

(** Arithmetic with division and remainder by constants. *)
Ltac ndiv := zify; Z.to_euclidean_division_equations; lia.

(** Case analysis over the 64 digits. *)
Ltac each_digit i :=
  destruct i as [|p]; [vm_compute; reflexivity|];
  do 6 (try (destruct p as [p|p|]; try (vm_compute; reflexivity)));
  exfalso; lia.

Lemma value_digit (i : N) : (i < 64)%N -> value (digit i) = Some i.
Proof. intros H. each_digit i. Qed.

Lemma digit_not_pad (i : N) : (i < 64)%N -> Byte.eqb (digit i) pad = false.
Proof. intros H. each_digit i. Qed.

Lemma digit_ascii (i : N) : (i < 64)%N -> Utf8.between 0 127 (digit i) = true.
Proof. intros H. each_digit i. Qed.

Lemma to_N_lt (b : byte) : (Byte.to_N b < 256)%N.
Proof. pose proof (Byte.to_N_bounded b). lia. Qed.

Lemma octet_to_N (b : byte) (n : N) :
  (n mod 256 = Byte.to_N b)%N -> octet n = Some b.
Proof. unfold octet. intros ->. apply Byte.of_to_N. Qed.

Lemma digit_at_value (n k : N) :
  value (digit_at n k) = Some ((n / 64 ^ k) mod 64)%N.
Proof. apply value_digit. apply N.mod_lt. discriminate. Qed.

Lemma digit_at_not_pad (n k : N) : Byte.eqb (digit_at n k) pad = false.
Proof. apply digit_not_pad. apply N.mod_lt. discriminate. Qed.

Ltac pow64 :=
  change (64 ^ 3)%N with 262144%N; change (64 ^ 2)%N with 4096%N;
  change (64 ^ 1)%N with 64%N; change (64 ^ 0)%N with 1%N.

Lemma join3_lt (a b c : byte) : (join3 a b c < 16777216)%N.
Proof.
  unfold join3.
  pose proof (to_N_lt a). pose proof (to_N_lt b). pose proof (to_N_lt c). lia.
Qed.

Lemma join4_digits (n : N) :
  (n < 16777216)%N ->
  join4 ((n / 64 ^ 3) mod 64) ((n / 64 ^ 2) mod 64)
        ((n / 64 ^ 1) mod 64) ((n / 64 ^ 0) mod 64) = n.
Proof. intros H. unfold join4. pow64. ndiv. Qed.

Lemma octets3_join3 (a b c : byte) : octets3 (join3 a b c) = Some [a; b; c].
Proof.
  pose proof (to_N_lt a). pose proof (to_N_lt b). pose proof (to_N_lt c).
  unfold octets3.
  rewrite (octet_to_N a (join3 a b c / 65536)) by (unfold join3; ndiv).
  rewrite (octet_to_N b (join3 a b c / 256)) by (unfold join3; ndiv).
  rewrite (octet_to_N c (join3 a b c)) by (unfold join3; ndiv).
  reflexivity.
Qed.

Lemma decode4_encode3 (a b c : byte) :
  let n := join3 a b c in
  decode4 (digit_at n 3) (digit_at n 2) (digit_at n 1) (digit_at n 0)
  = Some [a; b; c].
Proof.
  intros n. unfold decode4. rewrite !digit_at_value. cbn [mbind option_bind].
  rewrite join4_digits by apply join3_lt. apply octets3_join3.
Qed.

(** A final group of two octets: three digits and one pad sign. *)
Lemma decode_last_encode2 (a b : byte) :
  let n := join3 a b "000"%byte in
  decode_last (digit_at n 3) (digit_at n 2) (digit_at n 1) pad = Some [a; b].
Proof.
  intros n. unfold decode_last.
  change (Byte.eqb pad pad) with true. cbv iota.
  rewrite digit_at_not_pad, !digit_at_value. cbn [mbind option_bind].
  replace (join4 _ _ _ 0) with n.
  - unfold n. rewrite octets3_join3. reflexivity.
  - rewrite <- (join4_digits n) at 1 by apply join3_lt.
    unfold join4. f_equal. unfold n, join3. pow64.
    change (Byte.to_N "000") with 0%N. ndiv.
Qed.

(** A final group of one octet: two digits and two pad signs. *)
Lemma decode_last_encode1 (a : byte) :
  let n := join3 a "000"%byte "000"%byte in
  decode_last (digit_at n 3) (digit_at n 2) pad pad = Some [a].
Proof.
  intros n. unfold decode_last.
  change (Byte.eqb pad pad) with true. cbv iota.
  rewrite !digit_at_value. cbn [mbind option_bind].
  pose proof (to_N_lt a).
  rewrite (octet_to_N a); [reflexivity|].
  unfold join4, n, join3. pow64. change (Byte.to_N "000") with 0%N. ndiv.
Qed.

Lemma decode_last_encode3 (a b c : byte) :
  let n := join3 a b c in
  decode_last (digit_at n 3) (digit_at n 2) (digit_at n 1) (digit_at n 0)
  = Some [a; b; c].
Proof.
  intros n. unfold decode_last. rewrite digit_at_not_pad.
  apply decode4_encode3.
Qed.

Lemma b64encode_nil_inv (s : list byte) : b64encode s = [] -> s = [].
Proof. destruct s as [|a [|b [|c rest]]]; cbn; congruence. Qed.

Lemma decode_bytes_b64encode_le (n : nat) :
  forall s : list byte, length s <= n -> decode_bytes (b64encode s) = Some s.
Proof.
  induction n as [|n IH]; intros s Hlen.
  - destruct s; [reflexivity | cbn in Hlen; lia].
  - destruct s as [|a [|b [|c rest]]].
    + reflexivity.
    + apply decode_last_encode1.
    + apply decode_last_encode2.
    + cbn [b64encode].
      assert (Hrest : decode_bytes (b64encode rest) = Some rest)
        by (apply IH; cbn in Hlen; lia).
      destruct (b64encode rest) as [|d ds] eqn:E.
      * apply b64encode_nil_inv in E. subst rest. apply decode_last_encode3.
      * cbn [decode_bytes]. cbn [decode_bytes] in Hrest.
        rewrite decode4_encode3, Hrest. reflexivity.
Qed.

(** Round trip on bytes. *)
Lemma decode_bytes_b64encode (s : list byte) :
  decode_bytes (b64encode s) = Some s.
Proof. apply (decode_bytes_b64encode_le (length s)). lia. Qed.

(** Round trip through the text handed to the request. *)
Lemma b64decode_b64encode (s : list byte) :
  b64decode (string_of_list_byte (b64encode s)) = Some s.
Proof.
  unfold b64decode. rewrite list_byte_of_string_of_list_byte.
  apply decode_bytes_b64encode.
Qed.

End Base64Facts.

Module Utf8Facts.
Import Base64 Base64Facts.

(** ASCII, a two-byte and a three-byte character are accepted; a lone lead
    byte, an overlong form and a surrogate are refused. *)
Example well_formed_samples :
  map Utf8.well_formed
      [[x41; x42]; [xc3; xa9]; [xe2; x82; xac];
       [xc3]; [xc0; x80]; [xed; xa0; x80]]
  = [true; true; true; false; false; false].
Proof. reflexivity. Qed.

Lemma well_formed_ascii (s : list byte) :
  ascii_only s -> Utf8.well_formed s = true.
Proof.
  induction 1 as [|b s Hb _ IH]; [reflexivity|].
  cbn [Utf8.well_formed]. rewrite Hb. exact IH.
Qed.

Lemma digit_at_ascii (n k : N) : Utf8.between 0 127 (digit_at n k) = true.
Proof. apply digit_ascii. apply N.mod_lt. discriminate. Qed.

Lemma b64encode_ascii_le (n : nat) :
  forall s : list byte, length s <= n -> ascii_only (b64encode s).
Proof.
  induction n as [|n IH]; intros s Hlen.
  - destruct s; [constructor | cbn in Hlen; lia].
  - destruct s as [|a [|b [|c rest]]]; cbn [b64encode].
    + constructor.
    + repeat constructor; apply digit_at_ascii.
    + repeat constructor; apply digit_at_ascii.
    + repeat (constructor; [apply digit_at_ascii|]).
      apply IH. cbn in Hlen. lia.
Qed.

(** The encoder's output is ASCII, so decoding it as UTF-8 cannot raise. *)
Lemma decode_b64encode (s : list byte) :
  Utf8.decode (b64encode s) = Some (string_of_list_byte (b64encode s)).
Proof.
  unfold Utf8.decode.
  rewrite well_formed_ascii; [reflexivity|].
  apply (b64encode_ascii_le (length s)). lia.
Qed.
End Utf8Facts.

(* ===================================================================== *)
(** * Facts about the analysis client *)
(* ===================================================================== *)

Section AnalysisFacts.

Variable remote : OpenAI -> Request -> pyexc + Response.

(** A content type that is a text without the prefix gets the guidance;
    nothing is sent or shown. *)
Lemma analyze_not_image (client : OpenAI) (file_bytes : pyobj) (s : string) :
  String.prefix "image/" s = false ->
  analyze_lease_document remote client file_bytes (PyStr s)
  = (Ok (Some Texts.guidance), []).
Proof.
  intros H. unfold analyze_lease_document, startswith, try_except, bind, ret.
  rewrite H. reflexivity.
Qed.

(** Bytes with an image type: the request is built and sent, and the
    outcome follows the service's answer. *)
Lemma analyze_image (client : OpenAI) (b : list byte) (s : string) :
  String.prefix "image/" s = true ->
  exists req : Request,
    image_urls req = ["data:" +:+ s +:+ ";base64," +:+ base64_text b] /\
    max_tokens req = 2000%Z /\
    analyze_lease_document remote client (PyBytes b) (PyStr s) =
      match remote client req with
      | inl e => (Ok None, [ChatCreate client req; reported e])
      | inr r =>
          match choices r with
          | c :: _ => (Ok (message_content c), [ChatCreate client req])
          | [] =>
              (Ok None,
               [ChatCreate client req;
                reported {| exc_class := "IndexError";
                            exc_msg := "list index out of range" |}])
          end
      end.
Proof.
  intros H. eexists. split; [|split]; cycle 2.
  - unfold analyze_lease_document, startswith, b64encode, decode_utf8, format.
    unfold bind, ret. rewrite H. cbn [negb].
    pose proof (Utf8Facts.decode_b64encode b) as E. rewrite E. clear E.
    unfold chat_completions_create, try_except, bind, ret, emit, first,
      st.error, raise.
    match goal with
    | |- _ = match remote client ?e with _ => _ end =>
        match goal with
        | |- context [remote client (Build_Request ?m ?ms ?mt)] =>
            unify e (Build_Request m ms mt)
        end
    end.
    match goal with
    | |- context [remote client ?r] =>
        destruct (remote client r) as [e|[[|c cs]]]
    end; reflexivity.
  - reflexivity.
  - reflexivity.
Qed.

Lemma image_call_sends_one_request (client : OpenAI) (b : list byte)
  (s : string) :
  String.prefix "image/" s = true ->
  exists req : Request,
    requests (trace (analyze_lease_document remote client
                       (PyBytes b) (PyStr s))) = [req].
Proof.
  intros H. destruct (analyze_image client b s H) as (req & _ & _ & ->).
  exists req. destruct (remote client req) as [e|[[|c cs]]]; reflexivity.
Qed.

(** Every call follows one of the paths. *)
Lemma analyze_path (client : OpenAI) (file_bytes mime_type : pyobj) :
  analysis_path remote client
    (analyze_lease_document remote client file_bytes mime_type).
Proof.
  destruct mime_type as [s| | |]; try (apply path_rejected).
  destruct (String.prefix "image/" s) eqn:Hs.
  - destruct file_bytes as [|b| |].
    2: { destruct (analyze_image client b s Hs) as (req & _ & Hmax & ->).
         destruct (remote client req) as [e|[[|c cs]]] eqn:Hr.
         - apply path_raised; assumption.
         - apply path_no_choice; assumption.
         - apply (path_reply remote client req c cs); assumption. }
    all: unfold analyze_lease_document, startswith, b64encode, bind, ret;
      rewrite Hs; apply path_rejected.
  - rewrite analyze_not_image by exact Hs. apply path_guidance.
Qed.

End AnalysisFacts.

(* ===================================================================== *)
(** * Facts about the normalizer and the page *)
(* ===================================================================== *)

(** Requests of a concatenated trace. *)
Lemma requests_app (t u : list event) :
  requests (t ++ u) = requests t ++ requests u.
Proof.
  induction t as [|e t IH]; [reflexivity|].
  destruct e; cbn; rewrite ?IH; reflexivity.
Qed.

Section PageFacts.

Variable Image_open : list byte -> pyexc + Image.
Variable remote : OpenAI -> Request -> pyexc + Response.

Lemma unread_seek_0 (f : UploadedFile) : unread (seek f 0) = data f.
Proof. reflexivity. Qed.

Lemma process_uploaded_file_eq (f : UploadedFile) :
  process_uploaded_file Image_open f =
  (Ok (data f, type f,
       match Image_open (data f) with
       | inr img => Some img
       | inl _ => None
       end), []).
Proof.
  unfold process_uploaded_file, open_image. rewrite unread_seek_0.
  destruct (Image_open (data f)); reflexivity.
Qed.

(** Without a file the page ends after the input widget. *)
Lemma main_no_file (client : OpenAI) (ui : Widgets) :
  uploaded ui = None ->
  main Image_open remote client ui
  = (Ok tt, trace (main Image_open remote client (no_upload ui))).
Proof.
  unfold uploaded, main, no_upload, st.radio, st.file_uploader,
    st.camera_input. cbn.
  destruct (String.eqb (radio ui) "Upload an Image File"); cbn;
    intros ->; reflexivity.
Qed.

(** A file that does not decode: the page reports it and ends. *)
Lemma main_decode_failure (client : OpenAI) (ui : Widgets)
  (f : UploadedFile) (e : pyexc) :
  uploaded ui = Some f ->
  Image_open (data f) = inl e ->
  main Image_open remote client ui
  = (Ok tt,
     trace (main Image_open remote client (no_upload ui))
       ++ [UiError Texts.cannot_process]).
Proof.
  unfold uploaded, main, no_upload, st.radio, st.file_uploader,
    st.camera_input. cbn.
  destruct (String.eqb (radio ui) "Upload an Image File"); cbn;
    intros -> He; cbn; rewrite process_uploaded_file_eq, He; reflexivity.
Qed.

(** A file that decodes: preview, spinner, the call, and the result when
    it is truthy. *)
Lemma main_preview (client : OpenAI) (ui : Widgets)
  (f : UploadedFile) (img : Image) (r : option string) (t : list event) :
  uploaded ui = Some f ->
  Image_open (data f) = inr img ->
  analyze_lease_document remote client (PyBytes (data f)) (type f)
  = (Ok r, t) ->
  main Image_open remote client ui
  = (Ok tt,
     trace (main Image_open remote client (no_upload ui))
       ++ shown img ++ t ++ rendered r).
Proof.
  unfold uploaded, main, no_upload, st.radio, st.file_uploader,
    st.camera_input. cbn.
  destruct (String.eqb (radio ui) "Upload an Image File"); cbn;
    intros -> Hi Ha; cbn; rewrite process_uploaded_file_eq, Hi; cbn;
    unfold getvalue; rewrite Ha; destruct r as [text|]; cbn;
    [destruct (String.eqb text ""); cbn; rewrite ?app_nil_r; reflexivity
    | rewrite ?app_nil_r; reflexivity
    | destruct (String.eqb text ""); cbn; rewrite ?app_nil_r; reflexivity
    | rewrite ?app_nil_r; reflexivity ].
Qed.


End PageFacts.

(** ** The end-to-end scenarios of the specification, run *)

(** A valid PNG: one request with a PNG data URI, and the completion is
    rendered verbatim. *)
Example valid_png_is_analysed :
  let page := main Scenario.png_decoder
                (Scenario.replying (Some Scenario.no_issue))
                Scenario.client (Scenario.picked Scenario.valid_png) in
  result page = Ok tt
  /\ map image_urls (requests (trace page))
     = [["data:image/png;base64,iVBORw0KGgo="]]
  /\ List.filter presents_outcome (trace page)
     = [UiSuccess "Analysis Complete"; UiMarkdown Scenario.no_issue].
Proof. repeat split; vm_compute; reflexivity. Qed.

(** A time-out of the service: one request, one error message, no result. *)
Example timeout_is_reported_once :
  let page := main Scenario.png_decoder Scenario.timing_out
                Scenario.client (Scenario.picked Scenario.valid_png) in
  result page = Ok tt
  /\ length (requests (trace page)) = 1
  /\ List.filter presents_outcome (trace page)
     = [UiError "An error occurred during analysis: Request timed out."].
Proof. repeat split; vm_compute; reflexivity. Qed.

(** ** Facts shared by the statements below *)
Section SharedFacts.

Variable Image_open : list byte -> pyexc + Image.
Variable remote : OpenAI -> Request -> pyexc + Response.

(** Before a file is provided the page sends nothing and presents no
    outcome. *)
Lemma no_upload_quiet (client : OpenAI) (ui : Widgets) :
  let t := trace (main Image_open remote client (no_upload ui)) in
  requests t = [] /\ existsb presents_outcome t = false
  /\ existsb renders_result t = false.
Proof.
  unfold main, no_upload, st.radio, st.file_uploader, st.camera_input. cbn.
  destruct (String.eqb (radio ui) "Upload an Image File"); cbn; auto.
Qed.

Lemma prefix_append (p s : string) : String.prefix p (p +:+ s) = true.
Proof.
  induction p as [|c p IH].
  - destruct s; reflexivity.
  - change (String.prefix (String c p) (String c (p +:+ s)) = true).
    change ((if ascii_dec c c then String.prefix p (p +:+ s) else false)
            = true).
    destruct (ascii_dec c c) as [_|ne]; [exact IH | congruence].
Qed.

Lemma append_assoc (a b c : string) : (a +:+ b) +:+ c = a +:+ (b +:+ c).
Proof.
  induction a as [|x a IH]; [reflexivity|].
  change (String x ((a +:+ b) +:+ c) = String x (a +:+ (b +:+ c))).
  rewrite IH. reflexivity.
Qed.

End SharedFacts.

(** ** Start-up *)

(** A variable is absent after [load_dotenv] exactly when neither the
    process environment nor the [.env] file sets it. *)
Lemma getenv_load_dotenv_None (environ dotenv : gmap string string)
  (key : string) :
  getenv (load_dotenv dotenv environ) key = None
  <-> environ !! key = None /\ dotenv !! key = None.
Proof. unfold getenv, load_dotenv. apply lookup_union_None. Qed.

(** A missing or empty credential stops the script at the check. *)
Lemma script_stops_without_key
  (Image_open : list byte -> pyexc + Image)
  (remote : OpenAI -> Request -> pyexc + Response)
  (environ dotenv : gmap string string) (module_name : string)
  (ui : Widgets) :
  truthy (getenv (load_dotenv dotenv environ) "OPENAI_API_KEY") = false ->
  script Image_open remote environ dotenv module_name ui
  = (Raised StopScript, [UiError Texts.key_missing; UiStop]).
Proof. intros H. unfold script. rewrite H. reflexivity. Qed.

(** Conversely, a run that sends a request had a non-empty credential. *)
Lemma requests_need_key
  (Image_open : list byte -> pyexc + Image)
  (remote : OpenAI -> Request -> pyexc + Response)
  (environ dotenv : gmap string string) (module_name : string)
  (ui : Widgets) :
  requests (trace (script Image_open remote environ dotenv module_name ui))
    <> [] ->
  exists key : string,
    getenv (load_dotenv dotenv environ) "OPENAI_API_KEY" = Some key
    /\ key <> "".
Proof.
  intros Hreq.
  destruct (truthy (getenv (load_dotenv dotenv environ) "OPENAI_API_KEY"))
    eqn:Hkey.
  - destruct (getenv (load_dotenv dotenv environ) "OPENAI_API_KEY")
      as [key|]; [|discriminate Hkey].
    exists key. split; [reflexivity|]. intros ->. discriminate Hkey.
  - rewrite (script_stops_without_key _ _ _ _ _ _ Hkey) in Hreq.
    contradiction Hreq. reflexivity.
Qed.

(* ===================================================================== *)
(** * The statements of the specification *)
(* ===================================================================== *)

(** C1, as the specification words it, fails on a concrete run: a file of
    arbitrary bytes declared [image/png] is selected, decoding raises, and
    the page sends no request at all; it shows its own error instead. *)
Lemma corrupted_png_is_not_analysed :
  let ui := Scenario.picked Scenario.corrupted_png in
  let page := main Scenario.png_decoder
                (Scenario.replying (Some Scenario.no_issue))
                Scenario.client ui in
  uploaded ui = Some Scenario.corrupted_png
  /\ (exists e, Scenario.png_decoder (data Scenario.corrupted_png) = inl e)
  /\ type Scenario.corrupted_png = PyStr "image/png"
  /\ String.prefix "image/" "image/png" = true
  /\ ~ (exists sender req, In (ChatCreate sender req) (trace page)).
Proof.
  cbv zeta. split; [reflexivity|]. split; [eexists; reflexivity|].
  split; [reflexivity|]. split; [reflexivity|].
  intros (sender & req & Hin). vm_compute in Hin.
  repeat (destruct Hin as [Hin|Hin]; [discriminate Hin|]). exact Hin.
Qed.

(** C1, amended. For an upload whose bytes fail raster decoding the page
    does not call the analysis client, even when the declared content type
    starts with [image/]: it ends with the message that the file could not
    be processed and sends no request.  The two gates are independent at the level of the
    analysis client only: called on the same bytes with a content type
    starting with [image/], it does send its one request, since it never
    looks at whether the bytes decode. *)
Theorem decode_failure_stops_the_page_not_the_client
  (Image_open : list byte -> pyexc + Image)
  (remote : OpenAI -> Request -> pyexc + Response) (client : OpenAI)
  (ui : Widgets) (f : UploadedFile) (e : pyexc) (content_type : string) :
  uploaded ui = Some f ->
  Image_open (data f) = inl e ->
  type f = PyStr content_type ->
  String.prefix "image/" content_type = true ->
  main Image_open remote client ui
  = (Ok tt,
     trace (main Image_open remote client (no_upload ui))
       ++ [UiError Texts.cannot_process])
  /\ requests (trace (main Image_open remote client ui)) = []
  /\ exists req : Request,
       requests (trace (analyze_lease_document remote client
                          (PyBytes (getvalue f)) (type f))) = [req].
Proof.
  intros Hf He Ht Hp.
  rewrite (main_decode_failure Image_open remote client ui f e Hf He).
  split; [reflexivity|]. split.
  - cbn [trace snd]. rewrite requests_app.
    destruct (no_upload_quiet Image_open remote client ui) as (-> & _).
    reflexivity.
  - rewrite Ht.
    destruct (image_call_sends_one_request remote client (getvalue f) content_type Hp)
      as (req & Hreq). exists req. exact Hreq.
Qed.

Lemma decode_failure_stops_the_page_not_the_client_png :
  let ui := Scenario.picked Scenario.corrupted_png in
  let remote := Scenario.replying (Some Scenario.no_issue) in
  main Scenario.png_decoder remote Scenario.client ui
  = (Ok tt,
     trace (main Scenario.png_decoder remote Scenario.client (no_upload ui))
       ++ [UiError Texts.cannot_process])
  /\ requests (trace (main Scenario.png_decoder remote Scenario.client ui))
     = []
  /\ exists req : Request,
       requests (trace (analyze_lease_document remote Scenario.client
                          (PyBytes (getvalue Scenario.corrupted_png))
                          (type Scenario.corrupted_png))) = [req].
Proof.
  apply (decode_failure_stops_the_page_not_the_client
           Scenario.png_decoder (Scenario.replying (Some Scenario.no_issue))
           Scenario.client (Scenario.picked Scenario.corrupted_png)
           Scenario.corrupted_png
           {| exc_class := "UnidentifiedImageError";
              exc_msg := "cannot identify image file" |}
           "image/png");
    reflexivity.
Defined.

(** C2. For every declared content type that is a text not starting with
    [image/], the analysis client returns the fixed guidance text as an
    ordinary return value and sends no request (it emits nothing at all). *)
Theorem non_image_type_gets_guidance
  (remote : OpenAI -> Request -> pyexc + Response) (client : OpenAI)
  (file_bytes : pyobj) (content_type : string) :
  String.prefix "image/" content_type = false ->
  let run := analyze_lease_document remote client file_bytes
               (PyStr content_type) in
  result run = Ok (Some Texts.guidance)
  /\ requests (trace run) = []
  /\ trace run = [].
Proof.
  intros H run. unfold run. rewrite analyze_not_image by exact H. auto.
Qed.

Lemma non_image_type_gets_guidance_text_plain :
  let run := analyze_lease_document Scenario.timing_out Scenario.client
               (PyBytes (list_byte_of_string "rent is due"))
               (PyStr "text/plain") in
  result run = Ok (Some Texts.guidance)
  /\ requests (trace run) = []
  /\ trace run = [].
Proof.
  apply (non_image_type_gets_guidance Scenario.timing_out Scenario.client
           (PyBytes (list_byte_of_string "rent is due")) "text/plain").
  reflexivity.
Defined.

(** C3. For every byte sequence handed over with a content type starting
    with [image/], one call of the analysis client sends exactly one
    request, whose image URL ends in the base64 text of the bytes, and
    decoding that text gives the original bytes back. *)
Theorem one_request_with_faithful_base64
  (remote : OpenAI -> Request -> pyexc + Response) (client : OpenAI)
  (file_bytes : list byte) (content_type : string) :
  String.prefix "image/" content_type = true ->
  exists req : Request,
    requests (trace (analyze_lease_document remote client
                       (PyBytes file_bytes) (PyStr content_type))) = [req]
    /\ image_urls req
       = ["data:" +:+ content_type +:+ ";base64,"
            +:+ base64_text file_bytes]
    /\ Base64.b64decode (base64_text file_bytes) = Some file_bytes.
Proof.
  intros H.
  destruct (analyze_image remote client file_bytes content_type H)
    as (req & Hurl & _ & ->).
  exists req. split; [|split].
  - destruct (remote client req) as [e|[[|c cs]]]; reflexivity.
  - exact Hurl.
  - apply Base64Facts.b64decode_b64encode.
Qed.

Lemma one_request_with_faithful_base64_png :
  exists req : Request,
    requests (trace (analyze_lease_document
                       (Scenario.replying (Some Scenario.no_issue))
                       Scenario.client
                       (PyBytes (data Scenario.valid_png))
                       (PyStr "image/png"))) = [req]
    /\ image_urls req
       = ["data:" +:+ "image/png" +:+ ";base64,"
            +:+ base64_text (data Scenario.valid_png)]
    /\ Base64.b64decode (base64_text (data Scenario.valid_png))
       = Some (data Scenario.valid_png).
Proof.
  apply (one_request_with_faithful_base64
           (Scenario.replying (Some Scenario.no_issue)) Scenario.client
           (data Scenario.valid_png) "image/png").
  reflexivity.
Defined.

(** C4. When the request of a call is sent and the remote service raises on
    it, the analysis client catches the exception, shows one error message
    carrying the exception's text and returns [None]: the call ends
    normally and that one request is the only one sent. *)
Theorem remote_failure_is_caught
  (remote : OpenAI -> Request -> pyexc + Response) (client : OpenAI)
  (file_bytes mime_type : pyobj) (req : Request) (e : pyexc) :
  In (ChatCreate client req)
     (trace (analyze_lease_document remote client file_bytes mime_type)) ->
  remote client req = inl e ->
  analyze_lease_document remote client file_bytes mime_type
  = (Ok None,
     [ChatCreate client req;
      UiError ("An error occurred during analysis: " +:+ exc_msg e)]).
Proof.
  intros Hin Hr.
  pose proof (analyze_path remote client file_bytes mime_type) as P.
  inversion P as [Hm | e' Hm | req' e' _ Hr' Hm | req' _ Hr' Hm
                  | req' c cs _ Hr' Hm];
    rewrite <- Hm in Hin; cbn in Hin;
    repeat match goal with
    | H : _ \/ _ |- _ => destruct H
    | H : False |- _ => destruct H
    | H : reported _ = ChatCreate _ _ |- _ => discriminate H
    | H : ChatCreate _ _ = ChatCreate _ _ |- _ =>
        injection H as ->
    end;
    try congruence.
  replace e with e' by congruence. reflexivity.
Qed.

Lemma remote_failure_is_caught_timeout :
  exists req : Request,
    analyze_lease_document Scenario.timing_out Scenario.client
      (PyBytes (data Scenario.valid_png)) (PyStr "image/png")
    = (Ok None,
       [ChatCreate Scenario.client req;
        UiError "An error occurred during analysis: Request timed out."]).
Proof.
  eexists.
  apply (remote_failure_is_caught Scenario.timing_out Scenario.client
           (PyBytes (data Scenario.valid_png)) (PyStr "image/png") _
           {| exc_class := "APITimeoutError";
              exc_msg := "Request timed out." |}).
  - left. reflexivity.
  - reflexivity.
Defined.

(** C5. For every uploaded file, whatever its bytes, declared content type
    and read position, normalization ends normally and silently with the
    original bytes and the declared type unchanged; the preview is the
    decoded image when decoding succeeds and absent when it raises. *)
Theorem normalization_keeps_bytes_and_type
  (Image_open : list byte -> pyexc + Image) (uploaded_file : UploadedFile) :
  process_uploaded_file Image_open uploaded_file
  = (Ok (getvalue uploaded_file, type uploaded_file,
         match Image_open (getvalue uploaded_file) with
         | inr img => Some img
         | inl _ => None
         end),
     []).
Proof. apply process_uploaded_file_eq. Qed.

(** C6. When the credential is absent from the process environment the
    start-up check reads (the environment after [load_dotenv]), the script
    shows the configuration error and halts there: [main] is not entered
    and no request is sent. *)
Theorem missing_credential_halts
  (Image_open : list byte -> pyexc + Image)
  (remote : OpenAI -> Request -> pyexc + Response)
  (environ dotenv : gmap string string) (module_name : string)
  (ui : Widgets) :
  getenv (load_dotenv dotenv environ) "OPENAI_API_KEY" = None ->
  let run := script Image_open remote environ dotenv module_name ui in
  run = (Raised StopScript, [UiError Texts.key_missing; UiStop])
  /\ requests (trace run) = [].
Proof.
  intros H run. unfold run, script. rewrite H. split; reflexivity.
Qed.

Lemma missing_credential_halts_empty_environment :
  let run := script Scenario.png_decoder
               (Scenario.replying (Some Scenario.no_issue))
               ∅ {[ "OTHER_SETTING" := "1" ]} "__main__"
               (Scenario.picked Scenario.valid_png) in
  run = (Raised StopScript, [UiError Texts.key_missing; UiStop])
  /\ requests (trace run) = [].
Proof.
  apply (missing_credential_halts Scenario.png_decoder
           (Scenario.replying (Some Scenario.no_issue))
           ∅ {[ "OTHER_SETTING" := "1" ]} "__main__"
           (Scenario.picked Scenario.valid_png)).
  reflexivity.
Defined.

(** C7. For every image-typed input the single request carries the image
    URL [data:] + content type + [;base64,] + base64 of the bytes, which
    therefore starts with [data:<content type>;base64,]; a PNG upload
    gives [data:image/png;base64,...]. *)
Theorem image_url_is_data_uri
  (remote : OpenAI -> Request -> pyexc + Response) (client : OpenAI)
  (file_bytes : list byte) (content_type : string) :
  String.prefix "image/" content_type = true ->
  exists (req : Request) (url : string),
    requests (trace (analyze_lease_document remote client
                       (PyBytes file_bytes) (PyStr content_type))) = [req]
    /\ image_urls req = [url]
    /\ url = "data:" +:+ content_type +:+ ";base64,"
               +:+ base64_text file_bytes
    /\ String.prefix ("data:" +:+ content_type +:+ ";base64,") url = true.
Proof.
  intros H.
  destruct (analyze_image remote client file_bytes content_type H)
    as (req & Hurl & _ & ->).
  exists req. eexists. split; [|split; [exact Hurl|split; [reflexivity|]]].
  - destruct (remote client req) as [e|[[|c cs]]]; reflexivity.
  - replace ("data:" +:+ content_type +:+ ";base64,"
               +:+ base64_text file_bytes)
      with (("data:" +:+ content_type +:+ ";base64,")
              +:+ base64_text file_bytes)
      by (rewrite !append_assoc; reflexivity).
    apply prefix_append.
Qed.

Lemma image_url_is_data_uri_png :
  exists (req : Request) (url : string),
    requests (trace (analyze_lease_document
                       (Scenario.replying (Some Scenario.no_issue))
                       Scenario.client
                       (PyBytes (data Scenario.valid_png))
                       (PyStr "image/png"))) = [req]
    /\ image_urls req = [url]
    /\ url = "data:image/png;base64,iVBORw0KGgo="
    /\ String.prefix "data:image/png;base64," url = true.
Proof.
  apply (image_url_is_data_uri
           (Scenario.replying (Some Scenario.no_issue)) Scenario.client
           (data Scenario.valid_png) "image/png").
  reflexivity.
Defined.

(** C8. Every request the analysis client sends, for any input, asks for
    at most 2000 output tokens. *)
Theorem every_request_caps_max_tokens
  (remote : OpenAI -> Request -> pyexc + Response) (client : OpenAI)
  (file_bytes mime_type : pyobj) (sender : OpenAI) (req : Request) :
  In (ChatCreate sender req)
     (trace (analyze_lease_document remote client file_bytes mime_type)) ->
  max_tokens req = 2000%Z.
Proof.
  intros Hin.
  pose proof (analyze_path remote client file_bytes mime_type) as P.
  inversion P as [Hm | e' Hm | req' e' Hmax _ Hm | req' Hmax _ Hm
                  | req' c cs Hmax _ Hm];
    rewrite <- Hm in Hin; cbn in Hin;
    repeat match goal with
    | H : _ \/ _ |- _ => destruct H
    | H : False |- _ => destruct H
    | H : reported _ = ChatCreate _ _ |- _ => discriminate H
    | H : ChatCreate _ _ = ChatCreate _ _ |- _ => injection H as -> ->
    end;
    assumption.
Qed.

Lemma every_request_caps_max_tokens_png :
  exists req : Request,
    In (ChatCreate Scenario.client req)
       (trace (analyze_lease_document
                 (Scenario.replying (Some Scenario.no_issue))
                 Scenario.client
                 (PyBytes (data Scenario.valid_png)) (PyStr "image/png")))
    /\ max_tokens req = 2000%Z.
Proof.
  eexists. split.
  - left. reflexivity.
  - apply (every_request_caps_max_tokens
             (Scenario.replying (Some Scenario.no_issue)) Scenario.client
             (PyBytes (data Scenario.valid_png)) (PyStr "image/png")
             Scenario.client).
    left. reflexivity.
Defined.

(** C9. The analysis client is total: for every pair of arguments, also a
    content type that is [None], a number or a byte string, and also
    bytes that are no byte string, the call ends normally with a text or
    [None]; no exception leaves it. *)
Theorem analyze_never_raises
  (remote : OpenAI -> Request -> pyexc + Response) (client : OpenAI)
  (file_bytes mime_type : pyobj) :
  exists r : option string,
    result (analyze_lease_document remote client file_bytes mime_type) = Ok r.
Proof.
  pose proof (analyze_path remote client file_bytes mime_type) as P.
  inversion P; eexists; reflexivity.
Qed.

(** C10. With a preview at hand the page calls the analysis client, which
    returns some [r], and renders a result exactly when [r] is truthy.
    For a falsy [r] the page adds nothing of its own after the call, be
    [r] the empty text or [None].  When the remote service answers the
    request with an empty completion, [r] is the empty text and the whole
    page carries no result, no success indicator and no error. *)
Theorem result_rendered_iff_truthy
  (Image_open : list byte -> pyexc + Image)
  (remote : OpenAI -> Request -> pyexc + Response) (client : OpenAI)
  (ui : Widgets) (f : UploadedFile) (img : Image) :
  uploaded ui = Some f ->
  Image_open (data f) = inr img ->
  let call := analyze_lease_document remote client
                (PyBytes (getvalue f)) (type f) in
  let page := main Image_open remote client ui in
  exists r : option string,
    result call = Ok r
    /\ existsb renders_result (trace page) = truthy r
    /\ (truthy r = false ->
        trace page
        = trace (main Image_open remote client (no_upload ui))
            ++ [UiImage img "Image to be Analyzed";
                UiSpinner
                  "Analyzing your lease document... This may take a moment."]
            ++ trace call)
    /\ (forall (req : Request) (others : list choice),
          In (ChatCreate client req) (trace call) ->
          remote client req
          = inr {| choices := {| message_content := Some "" |} :: others |} ->
          r = Some "" /\ existsb presents_outcome (trace page) = false).
Proof.
  intros Hf Hi call page.
  pose proof (analyze_path remote client (PyBytes (getvalue f)) (type f))
    as P.
  fold call in P.
  destruct (no_upload_quiet Image_open remote client ui)
    as (_ & Hquiet & Hnone).
  assert (Hpage : forall r t, call = (Ok r, t) ->
            trace page
            = trace (main Image_open remote client (no_upload ui))
                ++ shown img ++ t ++ rendered r).
  { intros r t Hc. unfold page.
    rewrite (main_preview Image_open remote client ui f img r t Hf Hi Hc).
    reflexivity. }
  clearbody call page.
  destruct P as [ | e' | req' e' _ Hr | req' _ Hr | req' c cs _ Hr];
    rewrite (Hpage _ _ eq_refl);
    eexists; (split; [reflexivity|]);
    rewrite ?existsb_app, ?Hquiet, ?Hnone;
    (split; [|split]).
  (* the guidance text *)
  - reflexivity.
  - discriminate.
  - intros req others [].
  (* an exception before any request *)
  - reflexivity.
  - intros _. reflexivity.
  - intros req others [Hin|[]]. discriminate Hin.
  (* the service raised *)
  - reflexivity.
  - intros _. reflexivity.
  - intros req others [[= <-]|[Hin|[]]] Hreply; [congruence | discriminate Hin].
  (* a response without choices *)
  - reflexivity.
  - intros _. reflexivity.
  - intros req others [[= <-]|[Hin|[]]] Hreply; [congruence | discriminate Hin].
  (* a response *)
  - destruct (message_content c) as [text|]; [|reflexivity].
    cbn [truthy rendered].
    destruct (String.eqb text ""); reflexivity.
  - destruct (message_content c) as [text|]; [|intros _; reflexivity].
    cbn [truthy rendered].
    destruct (String.eqb text ""); [intros _; reflexivity | discriminate].
  - intros req others [[= <-]|[]] Hreply.
    rewrite Hr in Hreply. injection Hreply as -> _.
    split; reflexivity.
Qed.

Lemma result_rendered_iff_truthy_empty_completion :
  let remote := Scenario.replying (Some "") in
  let page := main Scenario.png_decoder remote Scenario.client
                (Scenario.picked Scenario.valid_png) in
  result (analyze_lease_document remote Scenario.client
            (PyBytes (getvalue Scenario.valid_png))
            (type Scenario.valid_png)) = Ok (Some "")
  /\ existsb renders_result (trace page) = false
  /\ existsb presents_outcome (trace page) = false.
Proof.
  destruct (result_rendered_iff_truthy Scenario.png_decoder
              (Scenario.replying (Some "")) Scenario.client
              (Scenario.picked Scenario.valid_png) Scenario.valid_png
              {| img_format := "PNG"; img_width := 10; img_height := 10 |}
              eq_refl eq_refl)
    as (r & Hr & Hiff & _ & Hempty).
  destruct (Hempty _ [] (or_introl eq_refl) eq_refl) as [-> Hquiet].
  split; [exact Hr|]. split; [exact Hiff | exact Hquiet].
Defined.

(* ===================================================================== *)
(** * Further properties of the analysis client *)
(* ===================================================================== *)

Section ClientShape.

Variable remote : OpenAI -> Request -> pyexc + Response.

(** The request of an image call, field by field. *)
Lemma analyze_image_shape (client : OpenAI) (b : list byte) (s : string) :
  String.prefix "image/" s = true ->
  exists req : Request,
    model req = "gpt-5-nano"
    /\ messages req
       = [ {| role := "user";
              content :=
                [ text_part Texts.prompt;
                  image_url_part ("data:" +:+ s +:+ ";base64,"
                                    +:+ base64_text b) ] |} ]
    /\ (trace (analyze_lease_document remote client (PyBytes b) (PyStr s))
        = [ChatCreate client req]
        \/ exists e,
             trace (analyze_lease_document remote client
                      (PyBytes b) (PyStr s))
             = [ChatCreate client req; reported e]).
Proof.
  intros H. eexists. split; [|split]; cycle 2.
  - unfold analyze_lease_document, startswith, b64encode, decode_utf8, format.
    unfold bind, ret. rewrite H. cbn [negb].
    pose proof (Utf8Facts.decode_b64encode b) as E. rewrite E. clear E.
    unfold chat_completions_create, try_except, bind, ret, emit, first,
      st.error, raise.
    match goal with
    | |- context [remote client ?r] =>
        destruct (remote client r) as [e|[[|c cs]]]
    end.
    + right. eexists. reflexivity.
    + right. eexists. reflexivity.
    + left. reflexivity.
  - reflexivity.
  - reflexivity.
Qed.

(** A call that is no image call leaves at most an error report. *)
Lemma analyze_other_trace (client : OpenAI) (file_bytes mime_type : pyobj) :
  (forall b s, file_bytes = PyBytes b -> mime_type = PyStr s ->
               String.prefix "image/" s = false) ->
  analyze_lease_document remote client file_bytes mime_type
  = (Ok (Some Texts.guidance), [])
  \/ exists e,
       analyze_lease_document remote client file_bytes mime_type
       = (Ok None, [reported e]).
Proof.
  intros H.
  destruct mime_type as [s| | |]; try (right; eexists; reflexivity).
  destruct (String.prefix "image/" s) eqn:Hs.
  - destruct file_bytes as [|b| |].
    2: { rewrite (H b s eq_refl eq_refl) in Hs. discriminate Hs. }
    all: right; eexists;
      unfold analyze_lease_document, startswith, b64encode, bind, ret;
      rewrite Hs; reflexivity.
  - left. apply analyze_not_image. exact Hs.
Qed.

End ClientShape.

(** Decides membership of a request event in the short traces of a call. *)
Ltac in_short_trace H :=
  cbn in H;
  repeat match type of H with
         | _ \/ _ => destruct H as [H|H]
         | False => destruct H
         end;
  try discriminate H.


(** X2. When the service answers the request with a response that has a
    first choice, the call returns that choice's content as it is (the
    other choices are ignored) and shows nothing. *)
Theorem first_choice_is_returned
  (remote : OpenAI -> Request -> pyexc + Response) (client : OpenAI)
  (file_bytes mime_type : pyobj) (req : Request) (c : choice)
  (others : list choice) :
  In (ChatCreate client req)
     (trace (analyze_lease_document remote client file_bytes mime_type)) ->
  remote client req = inr {| choices := c :: others |} ->
  analyze_lease_document remote client file_bytes mime_type
  = (Ok (message_content c), [ChatCreate client req]).
Proof.
  intros Hin Hr.
  pose proof (analyze_path remote client file_bytes mime_type) as P.
  inversion P as [Hm | e' Hm | req' e' _ Hr' Hm | req' _ Hr' Hm
                  | req' c' cs' _ Hr' Hm];
    rewrite <- Hm in Hin; in_short_trace Hin;
    injection Hin as ->; rewrite Hr in Hr'; try discriminate Hr'.
  injection Hr' as -> _. reflexivity.
Qed.

Lemma first_choice_is_returned_of_two :
  exists req : Request,
    analyze_lease_document Cases.two_choices Scenario.client
      (PyBytes (data Scenario.valid_png)) (PyStr "image/png")
    = (Ok (Some "first"), [ChatCreate Scenario.client req]).
Proof.
  eexists.
  apply (first_choice_is_returned Cases.two_choices Scenario.client
           (PyBytes (data Scenario.valid_png)) (PyStr "image/png") _
           {| message_content := Some "first" |}
           [ {| message_content := Some "second" |} ]).
  - left. reflexivity.
  - reflexivity.
Defined.

(** X3. A response without any choice makes [choices[0]] raise; the call
    reports "list index out of range" and returns [None]. *)
Theorem empty_choices_are_reported
  (remote : OpenAI -> Request -> pyexc + Response) (client : OpenAI)
  (file_bytes mime_type : pyobj) (req : Request) :
  In (ChatCreate client req)
     (trace (analyze_lease_document remote client file_bytes mime_type)) ->
  remote client req = inr {| choices := [] |} ->
  analyze_lease_document remote client file_bytes mime_type
  = (Ok None,
     [ChatCreate client req;
      UiError "An error occurred during analysis: list index out of range"]).
Proof.
  intros Hin Hr.
  pose proof (analyze_path remote client file_bytes mime_type) as P.
  inversion P as [Hm | e' Hm | req' e' _ Hr' Hm | req' _ Hr' Hm
                  | req' c' cs' _ Hr' Hm];
    rewrite <- Hm in Hin; in_short_trace Hin;
    injection Hin as ->; rewrite Hr in Hr'; try discriminate Hr'.
  reflexivity.
Qed.

Lemma empty_choices_are_reported_png :
  exists req : Request,
    analyze_lease_document Cases.no_choice Scenario.client
      (PyBytes (data Scenario.valid_png)) (PyStr "image/png")
    = (Ok None,
       [ChatCreate Scenario.client req;
        UiError
          "An error occurred during analysis: list index out of range"]).
Proof.
  eexists.
  apply (empty_choices_are_reported Cases.no_choice Scenario.client
           (PyBytes (data Scenario.valid_png)) (PyStr "image/png")).
  - left. reflexivity.
  - reflexivity.
Defined.

(** X4. A content type that is no text ([None], a number, a byte string)
    makes [startswith] raise inside the [try]: the call shows one error
    message, returns [None] and sends no request, whatever the bytes. *)
Theorem non_text_type_is_reported
  (remote : OpenAI -> Request -> pyexc + Response) (client : OpenAI)
  (file_bytes mime_type : pyobj) :
  is_text mime_type = false ->
  exists e : pyexc,
    analyze_lease_document remote client file_bytes mime_type
    = (Ok None,
       [UiError ("An error occurred during analysis: " +:+ exc_msg e)])
    /\ (exc_class e = "AttributeError" \/ exc_class e = "TypeError").
Proof.
  intros H. destruct mime_type as [s|b|z|]; [discriminate H|..];
    eexists; (split; [reflexivity|]); cbn; auto.
Qed.

Lemma non_text_type_is_reported_none :
  exists e : pyexc,
    analyze_lease_document Scenario.timing_out Scenario.client
      (PyBytes (data Scenario.valid_png)) PyNone
    = (Ok None,
       [UiError ("An error occurred during analysis: " +:+ exc_msg e)])
    /\ (exc_class e = "AttributeError" \/ exc_class e = "TypeError").
Proof.
  apply (non_text_type_is_reported Scenario.timing_out Scenario.client
           (PyBytes (data Scenario.valid_png)) PyNone).
  reflexivity.
Defined.



(** X6. Whenever a call shows a message it is a single error message and
    the call returns [None]: a returned text is never accompanied by an
    error, and no call shows a success or a result itself. *)
Theorem message_means_none
  (remote : OpenAI -> Request -> pyexc + Response) (client : OpenAI)
  (file_bytes mime_type : pyobj) :
  let call := analyze_lease_document remote client file_bytes mime_type in
  existsb presents_outcome (trace call) = true ->
  result call = Ok None
  /\ exists e : pyexc,
       List.filter presents_outcome (trace call)
       = [UiError ("An error occurred during analysis: " +:+ exc_msg e)].
Proof.
  intros call. subst call.
  pose proof (analyze_path remote client file_bytes mime_type) as P.
  inversion P as [Hm | e' Hm | req' e' _ Hr' Hm | req' _ Hr' Hm
                  | req' c' cs' _ Hr' Hm];
    cbn; intros H; try discriminate H;
    (split; [reflexivity | eexists; reflexivity]).
Qed.

Lemma message_means_none_timeout :
  let call := analyze_lease_document Scenario.timing_out Scenario.client
                (PyBytes (data Scenario.valid_png)) (PyStr "image/png") in
  result call = Ok None
  /\ exists e : pyexc,
       List.filter presents_outcome (trace call)
       = [UiError ("An error occurred during analysis: " +:+ exc_msg e)].
Proof.
  apply (message_means_none Scenario.timing_out Scenario.client
           (PyBytes (data Scenario.valid_png)) (PyStr "image/png")).
  reflexivity.
Defined.

(** X7. Every request a call sends goes through the client it was given,
    names the model [gpt-5-nano] and holds one message of role [user]
    whose content is the fixed prompt followed by exactly one image URL. *)
Theorem every_request_has_the_fixed_shape
  (remote : OpenAI -> Request -> pyexc + Response) (client : OpenAI)
  (file_bytes mime_type : pyobj) (sender : OpenAI) (req : Request) :
  In (ChatCreate sender req)
     (trace (analyze_lease_document remote client file_bytes mime_type)) ->
  sender = client
  /\ model req = "gpt-5-nano"
  /\ exists url : string,
       messages req
       = [ {| role := "user";
              content := [text_part Texts.prompt; image_url_part url] |} ].
Proof.
  intros Hin.
  destruct file_bytes as [t|b|z|]; destruct mime_type as [s|b'|z'|];
    try (match type of Hin with
         | In _ (trace (analyze_lease_document _ _ ?fb ?mt)) =>
             assert (Hno : forall b0 s0, fb = PyBytes b0 ->
                             mt = PyStr s0 ->
                             String.prefix "image/" s0 = false)
               by (intros ? ? ? ?; discriminate);
             destruct (analyze_other_trace remote client fb mt Hno)
               as [Ha|[e Ha]]; rewrite Ha in Hin; in_short_trace Hin
         end).
  destruct (String.prefix "image/" s) eqn:Hs.
  - destruct (analyze_image_shape remote client b s Hs)
      as (req' & Hmodel & Hmsg & [Ht|[e Ht]]);
      rewrite Ht in Hin; in_short_trace Hin;
      injection Hin as <- <-; eauto.
  - rewrite analyze_not_image in Hin by exact Hs. in_short_trace Hin.
Qed.

Lemma every_request_has_the_fixed_shape_png :
  exists req : Request,
    In (ChatCreate Scenario.client req)
       (trace (analyze_lease_document Scenario.timing_out Scenario.client
                 (PyBytes (data Scenario.valid_png)) (PyStr "image/png")))
    /\ Scenario.client = Scenario.client
    /\ model req = "gpt-5-nano"
    /\ exists url : string,
         messages req
         = [ {| role := "user";
                content := [text_part Texts.prompt; image_url_part url] |} ].
Proof.
  eexists. split.
  - left. reflexivity.
  - apply (every_request_has_the_fixed_shape Scenario.timing_out
             Scenario.client (PyBytes (data Scenario.valid_png))
             (PyStr "image/png")).
    left. reflexivity.
Defined.

(** X8. For every byte string, base64 encoding followed by UTF-8 decoding
    succeeds and emits nothing: the encoded bytes are ASCII, so no upload
    can make the encoding step of the call raise. *)
Theorem encoding_step_never_raises (file_bytes : list byte) :
  ascii_only (Base64.b64encode file_bytes)
  /\ (encoded <- b64encode (PyBytes file_bytes);; decode_utf8 encoded)
     = (Ok (base64_text file_bytes), []).
Proof.
  split.
  - apply (Utf8Facts.b64encode_ascii_le (length file_bytes)). lia.
  - unfold b64encode, decode_utf8, bind, ret.
    pose proof (Utf8Facts.decode_b64encode file_bytes) as E. rewrite E.
    reflexivity.
Qed.

Lemma append_cancel_l (p x y : string) : p +:+ x = p +:+ y -> x = y.
Proof.
  induction p as [|c p IH]; intros H; [exact H|].
  change (String c (p +:+ x) = String c (p +:+ y)) in H.
  injection H as H. apply IH. exact H.
Qed.

(** X9. The image URL determines the bytes: under one content type two
    different byte strings never give the same URL. *)
Theorem different_bytes_different_url (content_type : string)
  (b1 b2 : list byte) :
  b1 <> b2 ->
  "data:" +:+ content_type +:+ ";base64," +:+ base64_text b1
  <> "data:" +:+ content_type +:+ ";base64," +:+ base64_text b2.
Proof.
  intros Hne H. apply Hne.
  do 3 apply append_cancel_l in H.
  pose proof (Base64Facts.b64decode_b64encode b1) as H1.
  pose proof (Base64Facts.b64decode_b64encode b2) as H2.
  fold (base64_text b1) in H1. fold (base64_text b2) in H2.
  rewrite H in H1. rewrite H1 in H2. injection H2 as ->. reflexivity.
Qed.

Lemma different_bytes_different_url_png :
  "data:" +:+ "image/png" +:+ ";base64,"
    +:+ base64_text (data Scenario.valid_png)
  <> "data:" +:+ "image/png" +:+ ";base64,"
       +:+ base64_text (data Scenario.corrupted_png).
Proof.
  apply (different_bytes_different_url "image/png"
           (data Scenario.valid_png) (data Scenario.corrupted_png)).
  discriminate.
Defined.

(* ===================================================================== *)
(** * Further properties of the normalizer and the page *)
(* ===================================================================== *)

Section PageShape.

Variable Image_open : list byte -> pyexc + Image.
Variable remote : OpenAI -> Request -> pyexc + Response.

Lemma no_upload_filter (client : OpenAI) (ui : Widgets) :
  List.filter presents_outcome
    (trace (main Image_open remote client (no_upload ui))) = [].
Proof.
  unfold main, no_upload, st.radio, st.file_uploader, st.camera_input. cbn.
  destruct (String.eqb (radio ui) "Upload an Image File"); reflexivity.
Qed.

Lemma no_upload_no_request (client : OpenAI) (ui : Widgets)
  (sender : OpenAI) (req : Request) :
  ~ In (ChatCreate sender req)
       (trace (main Image_open remote client (no_upload ui))).
Proof.
  unfold main, no_upload, st.radio, st.file_uploader, st.camera_input. cbn.
  destruct (String.eqb (radio ui) "Upload an Image File"); cbn;
    intros H; in_short_trace H.
Qed.

(** The page before a file is there depends on the selection only. *)
Lemma no_upload_same_radio (client : OpenAI) (ui ui' : Widgets) :
  radio ui = radio ui' ->
  main Image_open remote client (no_upload ui)
  = main Image_open remote client (no_upload ui').
Proof. unfold no_upload. intros ->. reflexivity. Qed.

(** The outcome of a call is always normal. *)
Lemma analyze_returns (client : OpenAI) (file_bytes mime_type : pyobj) :
  exists r t,
    analyze_lease_document remote client file_bytes mime_type = (Ok r, t).
Proof.
  pose proof (analyze_path remote client file_bytes mime_type) as P.
  inversion P; eexists; eexists; reflexivity.
Qed.

(** The client of a call is the sender of its requests. *)
Lemma analyze_sender (client : OpenAI) (file_bytes mime_type : pyobj)
  (sender : OpenAI) (req : Request) :
  In (ChatCreate sender req)
     (trace (analyze_lease_document remote client file_bytes mime_type)) ->
  sender = client.
Proof.
  intros Hin.
  pose proof (analyze_path remote client file_bytes mime_type) as P.
  inversion P as [Hm | e' Hm | req' e' _ Hr' Hm | req' _ Hr' Hm
                  | req' c' cs' _ Hr' Hm];
    rewrite <- Hm in Hin; in_short_trace Hin;
    injection Hin as -> _; reflexivity.
Qed.

(** The sender of every request of a page run is the page's client. *)
Lemma main_sender (client : OpenAI) (ui : Widgets)
  (sender : OpenAI) (req : Request) :
  In (ChatCreate sender req) (trace (main Image_open remote client ui)) ->
  sender = client.
Proof.
  intros Hin.
  destruct (uploaded ui) as [f|] eqn:Hf.
  - destruct (Image_open (data f)) as [e|img] eqn:Hi.
    + rewrite (main_decode_failure Image_open remote client ui f e Hf Hi)
        in Hin.
      cbn [trace snd] in Hin. apply in_app_or in Hin as [Hin|Hin].
      * destruct (no_upload_no_request client ui sender req Hin).
      * in_short_trace Hin.
    + destruct (analyze_returns client (PyBytes (data f)) (type f))
        as (r & t & Hcall).
      rewrite (main_preview Image_open remote client ui f img r t Hf Hi Hcall)
        in Hin.
      cbn [trace snd] in Hin.
      apply in_app_or in Hin as [Hin|Hin];
        [destruct (no_upload_no_request client ui sender req Hin)|].
      apply in_app_or in Hin as [Hin|Hin]; [in_short_trace Hin|].
      apply in_app_or in Hin as [Hin|Hin].
      * apply (analyze_sender client (PyBytes (data f)) (type f) sender req).
        rewrite Hcall. exact Hin.
      * destruct r as [text|]; [|destruct Hin].
        cbn [rendered truthy] in Hin.
        destruct (String.eqb text ""); in_short_trace Hin.
  - rewrite (main_no_file Image_open remote client ui Hf) in Hin.
    destruct (no_upload_no_request client ui sender req Hin).
Qed.

End PageShape.


(** X11. The page reads the widget of the selected input path only: two
    page states with the same selection and the same file on the selected
    path give the same run, whatever the other widget holds. *)
Theorem unselected_widget_is_ignored
  (Image_open : list byte -> pyexc + Image)
  (remote : OpenAI -> Request -> pyexc + Response) (client : OpenAI)
  (ui ui' : Widgets) :
  radio ui = radio ui' ->
  uploaded ui = uploaded ui' ->
  main Image_open remote client ui = main Image_open remote client ui'.
Proof.
  intros Hr Hu.
  pose proof (no_upload_same_radio Image_open remote client ui ui' Hr)
    as Hhead.
  destruct (uploaded ui) as [f|] eqn:Hf; symmetry in Hu.
  - destruct (Image_open (data f)) as [e|img] eqn:Hi.
    + rewrite (main_decode_failure Image_open remote client ui f e Hf Hi),
        (main_decode_failure Image_open remote client ui' f e Hu Hi), Hhead.
      reflexivity.
    + destruct (analyze_returns remote client (PyBytes (data f)) (type f))
        as (r & t & Hcall).
      rewrite (main_preview Image_open remote client ui f img r t
                 Hf Hi Hcall),
        (main_preview Image_open remote client ui' f img r t Hu Hi Hcall),
        Hhead.
      reflexivity.
  - rewrite (main_no_file Image_open remote client ui Hf),
      (main_no_file Image_open remote client ui' Hu), Hhead.
    reflexivity.
Qed.

Lemma unselected_widget_is_ignored_camera :
  main Scenario.png_decoder (Scenario.replying (Some Scenario.no_issue))
    Scenario.client Cases.camera_with_stale_file
  = main Scenario.png_decoder (Scenario.replying (Some Scenario.no_issue))
      Scenario.client Cases.camera_only.
Proof.
  apply (unselected_widget_is_ignored Scenario.png_decoder
           (Scenario.replying (Some Scenario.no_issue)) Scenario.client
           Cases.camera_with_stale_file Cases.camera_only);
    reflexivity.
Defined.

(** X12. While the selected widget holds no file the page ends after the
    widget: it sends no request and shows neither a result nor an error,
    even when the other widget holds a file. *)
Theorem no_file_no_analysis
  (Image_open : list byte -> pyexc + Image)
  (remote : OpenAI -> Request -> pyexc + Response) (client : OpenAI)
  (ui : Widgets) :
  uploaded ui = None ->
  let page := main Image_open remote client ui in
  result page = Ok tt
  /\ requests (trace page) = []
  /\ List.filter presents_outcome (trace page) = [].
Proof.
  intros Hf page. unfold page.
  rewrite (main_no_file Image_open remote client ui Hf). cbn [result trace fst snd].
  destruct (no_upload_quiet Image_open remote client ui) as (Hreq & _ & _).
  split; [reflexivity|]. split; [exact Hreq|].
  apply no_upload_filter.
Qed.

Lemma no_file_no_analysis_other_widget :
  let page := main Scenario.png_decoder
                (Scenario.replying (Some Scenario.no_issue))
                Scenario.client Cases.nothing_picked in
  result page = Ok tt
  /\ requests (trace page) = []
  /\ List.filter presents_outcome (trace page) = [].
Proof.
  apply (no_file_no_analysis Scenario.png_decoder
           (Scenario.replying (Some Scenario.no_issue)) Scenario.client
           Cases.nothing_picked).
  reflexivity.
Defined.

(** X13. For an upload that does not decode, whatever its declared type
    (also one that is no text), the only outcome the page shows is the
    message that the file could not be processed, and nothing is sent. *)
Theorem undecodable_upload_gets_only_the_page_error
  (Image_open : list byte -> pyexc + Image)
  (remote : OpenAI -> Request -> pyexc + Response) (client : OpenAI)
  (ui : Widgets) (f : UploadedFile) (e : pyexc) :
  uploaded ui = Some f ->
  Image_open (data f) = inl e ->
  let page := main Image_open remote client ui in
  requests (trace page) = []
  /\ List.filter presents_outcome (trace page)
     = [UiError Texts.cannot_process].
Proof.
  intros Hf He page. unfold page.
  rewrite (main_decode_failure Image_open remote client ui f e Hf He).
  cbn [trace snd].
  rewrite requests_app, List.filter_app, no_upload_filter.
  destruct (no_upload_quiet Image_open remote client ui) as (-> & _ & _).
  split; reflexivity.
Qed.

Lemma undecodable_upload_gets_only_the_page_error_png :
  let page := main Scenario.png_decoder
                (Scenario.replying (Some Scenario.no_issue))
                Scenario.client (Scenario.picked Scenario.corrupted_png) in
  requests (trace page) = []
  /\ List.filter presents_outcome (trace page)
     = [UiError Texts.cannot_process].
Proof.
  apply (undecodable_upload_gets_only_the_page_error Scenario.png_decoder
           (Scenario.replying (Some Scenario.no_issue)) Scenario.client
           (Scenario.picked Scenario.corrupted_png) Scenario.corrupted_png
           {| exc_class := "UnidentifiedImageError";
              exc_msg := "cannot identify image file" |});
    reflexivity.
Defined.

(** X14. When the upload decodes and the service answers the request with
    a non-empty completion, the page shows, in this order, the preview,
    the spinner, the success banner and the completion rendered verbatim;
    the request goes out after the preview and before the banner. *)
Theorem completion_is_rendered_verbatim
  (Image_open : list byte -> pyexc + Image)
  (remote : OpenAI -> Request -> pyexc + Response) (client : OpenAI)
  (ui : Widgets) (f : UploadedFile) (img : Image) (req : Request)
  (text : string) (others : list choice) :
  uploaded ui = Some f ->
  Image_open (data f) = inr img ->
  In (ChatCreate client req)
     (trace (analyze_lease_document remote client
               (PyBytes (getvalue f)) (type f))) ->
  remote client req
  = inr {| choices := {| message_content := Some text |} :: others |} ->
  String.eqb text "" = false ->
  main Image_open remote client ui
  = (Ok tt,
     trace (main Image_open remote client (no_upload ui))
       ++ [UiImage img "Image to be Analyzed";
           UiSpinner
             "Analyzing your lease document... This may take a moment.";
           ChatCreate client req;
           UiSuccess "Analysis Complete";
           UiMarkdown text]).
Proof.
  intros Hf Hi Hin Hr Ht.
  pose proof (analyze_path remote client (PyBytes (getvalue f)) (type f))
    as P.
  inversion P as [Hm | e' Hm | req' e' _ Hr' Hm | req' _ Hr' Hm
                  | req' c' cs' _ Hr' Hm];
    rewrite <- Hm in Hin; in_short_trace Hin;
    injection Hin as ->; rewrite Hr in Hr'; try discriminate Hr'.
  injection Hr' as <- _. symmetry in Hm.
  rewrite (main_preview Image_open remote client ui f img _ _ Hf Hi Hm).
  cbn [message_content rendered truthy]. rewrite Ht. reflexivity.
Qed.

Lemma completion_is_rendered_verbatim_png :
  exists req : Request,
    main Scenario.png_decoder (Scenario.replying (Some Scenario.no_issue))
      Scenario.client (Scenario.picked Scenario.valid_png)
    = (Ok tt,
       trace (main Scenario.png_decoder
                (Scenario.replying (Some Scenario.no_issue))
                Scenario.client
                (no_upload (Scenario.picked Scenario.valid_png)))
         ++ [UiImage {| img_format := "PNG"; img_width := 10;
                        img_height := 10 |} "Image to be Analyzed";
             UiSpinner
               "Analyzing your lease document... This may take a moment.";
             ChatCreate Scenario.client req;
             UiSuccess "Analysis Complete";
             UiMarkdown Scenario.no_issue]).
Proof.
  eexists.
  apply (completion_is_rendered_verbatim Scenario.png_decoder
           (Scenario.replying (Some Scenario.no_issue)) Scenario.client
           (Scenario.picked Scenario.valid_png) Scenario.valid_png
           {| img_format := "PNG"; img_width := 10; img_height := 10 |}
           _ Scenario.no_issue []).
  - reflexivity.
  - reflexivity.
  - left. reflexivity.
  - reflexivity.
  - reflexivity.
Defined.

(** X15. When the upload decodes and the service raises on the request,
    the page shows the preview and the spinner, sends that one request and
    ends with the single error message of the analysis client; it shows
    neither a success banner nor a result. *)
Theorem remote_failure_on_the_page
  (Image_open : list byte -> pyexc + Image)
  (remote : OpenAI -> Request -> pyexc + Response) (client : OpenAI)
  (ui : Widgets) (f : UploadedFile) (img : Image) (req : Request)
  (e : pyexc) :
  uploaded ui = Some f ->
  Image_open (data f) = inr img ->
  In (ChatCreate client req)
     (trace (analyze_lease_document remote client
               (PyBytes (getvalue f)) (type f))) ->
  remote client req = inl e ->
  main Image_open remote client ui
  = (Ok tt,
     trace (main Image_open remote client (no_upload ui))
       ++ [UiImage img "Image to be Analyzed";
           UiSpinner
             "Analyzing your lease document... This may take a moment.";
           ChatCreate client req;
           UiError ("An error occurred during analysis: " +:+ exc_msg e)]).
Proof.
  intros Hf Hi Hin Hr.
  pose proof (analyze_path remote client (PyBytes (getvalue f)) (type f))
    as P.
  inversion P as [Hm | e' Hm | req' e' _ Hr' Hm | req' _ Hr' Hm
                  | req' c' cs' _ Hr' Hm];
    rewrite <- Hm in Hin; in_short_trace Hin;
    injection Hin as ->; rewrite Hr in Hr'; try discriminate Hr'.
  injection Hr' as <-. symmetry in Hm.
  rewrite (main_preview Image_open remote client ui f img _ _ Hf Hi Hm).
  reflexivity.
Qed.

Lemma remote_failure_on_the_page_timeout :
  exists req : Request,
    main Scenario.png_decoder Scenario.timing_out
      Scenario.client (Scenario.picked Scenario.valid_png)
    = (Ok tt,
       trace (main Scenario.png_decoder Scenario.timing_out
                Scenario.client
                (no_upload (Scenario.picked Scenario.valid_png)))
         ++ [UiImage {| img_format := "PNG"; img_width := 10;
                        img_height := 10 |} "Image to be Analyzed";
             UiSpinner
               "Analyzing your lease document... This may take a moment.";
             ChatCreate Scenario.client req;
             UiError
               "An error occurred during analysis: Request timed out."]).
Proof.
  eexists.
  apply (remote_failure_on_the_page Scenario.png_decoder
           Scenario.timing_out Scenario.client
           (Scenario.picked Scenario.valid_png) Scenario.valid_png
           {| img_format := "PNG"; img_width := 10; img_height := 10 |}
           _ {| exc_class := "APITimeoutError";
                exc_msg := "Request timed out." |}).
  - reflexivity.
  - reflexivity.
  - left. reflexivity.
  - reflexivity.
Defined.

(** X16. When the upload decodes but its declared type is a text that
    does not start with [image/], the page sends no request and presents
    the guidance text as if it were an analysis: under the success banner
    "Analysis Complete", rendered as the result. *)
Theorem mistyped_upload_gets_guidance_as_result
  (Image_open : list byte -> pyexc + Image)
  (remote : OpenAI -> Request -> pyexc + Response) (client : OpenAI)
  (ui : Widgets) (f : UploadedFile) (img : Image)
  (content_type : string) :
  uploaded ui = Some f ->
  Image_open (data f) = inr img ->
  type f = PyStr content_type ->
  String.prefix "image/" content_type = false ->
  let page := main Image_open remote client ui in
  requests (trace page) = []
  /\ List.filter presents_outcome (trace page)
     = [UiSuccess "Analysis Complete"; UiMarkdown Texts.guidance].
Proof.
  intros Hf Hi Ht Hs page. unfold page.
  assert (Hcall : analyze_lease_document remote client
                    (PyBytes (data f)) (type f)
                  = (Ok (Some Texts.guidance), [])).
  { rewrite Ht. apply analyze_not_image. exact Hs. }
  rewrite (main_preview Image_open remote client ui f img _ _ Hf Hi Hcall).
  cbn [trace snd].
  rewrite !requests_app, !List.filter_app, no_upload_filter.
  destruct (no_upload_quiet Image_open remote client ui) as (-> & _ & _).
  split; reflexivity.
Qed.

Lemma mistyped_upload_gets_guidance_as_result_octet_stream :
  let page := main Scenario.png_decoder Scenario.timing_out
                Scenario.client (Scenario.picked Cases.mistyped_png) in
  requests (trace page) = []
  /\ List.filter presents_outcome (trace page)
     = [UiSuccess "Analysis Complete"; UiMarkdown Texts.guidance].
Proof.
  apply (mistyped_upload_gets_guidance_as_result Scenario.png_decoder
           Scenario.timing_out Scenario.client
           (Scenario.picked Cases.mistyped_png) Cases.mistyped_png
           {| img_format := "PNG"; img_width := 10; img_height := 10 |}
           "application/octet-stream");
    reflexivity.
Defined.

(** X17. Normalization depends on the file's bytes and declared type
    only: the name and the current read position do not matter, because
    the position is reset before decoding. *)
Theorem normalization_ignores_name_and_position
  (Image_open : list byte -> pyexc + Image) (f g : UploadedFile) :
  data f = data g ->
  type f = type g ->
  process_uploaded_file Image_open f = process_uploaded_file Image_open g.
Proof.
  intros Hd Ht. rewrite !process_uploaded_file_eq, Hd, Ht. reflexivity.
Qed.

Lemma normalization_ignores_name_and_position_moved :
  process_uploaded_file Scenario.png_decoder Scenario.valid_png
  = process_uploaded_file Scenario.png_decoder Cases.moved_png.
Proof.
  apply (normalization_ignores_name_and_position Scenario.png_decoder
           Scenario.valid_png Cases.moved_png);
    reflexivity.
Defined.

(* ===================================================================== *)
(** * Further properties of the start-up *)
(* ===================================================================== *)

(** With a non-empty credential the script is the page function run with
    the client built from it, or nothing when the module is not the main
    module. *)
Lemma script_with_key
  (Image_open : list byte -> pyexc + Image)
  (remote : OpenAI -> Request -> pyexc + Response)
  (environ dotenv : gmap string string) (module_name : string)
  (ui : Widgets) (key : string) :
  getenv (load_dotenv dotenv environ) "OPENAI_API_KEY" = Some key ->
  String.eqb key "" = false ->
  script Image_open remote environ dotenv module_name ui
  = if String.eqb module_name "__main__"
    then main Image_open remote {| api_key := Some key |} ui
    else (Ok tt, []).
Proof.
  intros Hk Hne. unfold script. rewrite Hk. cbn [truthy]. rewrite Hne.
  cbn [negb]. unfold bind at 1. unfold ret at 1.
  destruct (String.eqb module_name "__main__"); [|reflexivity].
  destruct (main Image_open remote {| api_key := Some key |} ui) as [o t].
  reflexivity.
Qed.

(** X18. Every request sent in a run of the script goes through a client
    that carries the value of [OPENAI_API_KEY] found in the environment
    after [load_dotenv], and that value is not empty; requests are sent
    only when the script runs as the main module. *)
Theorem requests_carry_the_credential
  (Image_open : list byte -> pyexc + Image)
  (remote : OpenAI -> Request -> pyexc + Response)
  (environ dotenv : gmap string string) (module_name : string)
  (ui : Widgets) (sender : OpenAI) (req : Request) :
  In (ChatCreate sender req)
     (trace (script Image_open remote environ dotenv module_name ui)) ->
  exists key : string,
    getenv (load_dotenv dotenv environ) "OPENAI_API_KEY" = Some key
    /\ String.eqb key "" = false
    /\ api_key sender = Some key
    /\ module_name = "__main__".
Proof.
  intros Hin.
  destruct (truthy (getenv (load_dotenv dotenv environ) "OPENAI_API_KEY"))
    eqn:Hkey.
  - destruct (getenv (load_dotenv dotenv environ) "OPENAI_API_KEY")
      as [key|] eqn:Hget; [|discriminate Hkey].
    cbn [truthy] in Hkey.
    assert (Hne : String.eqb key "" = false)
      by (destruct (String.eqb key ""); [discriminate Hkey | reflexivity]).
    rewrite (script_with_key Image_open remote environ dotenv module_name
               ui key Hget Hne) in Hin.
    destruct (String.eqb_spec module_name "__main__") as [->|Hname];
      [|destruct Hin].
    apply main_sender in Hin. subst sender.
    exists key. auto.
  - rewrite (script_stops_without_key _ _ _ _ _ _ Hkey) in Hin.
    in_short_trace Hin.
Qed.

Lemma requests_carry_the_credential_from_dotenv :
  exists (req : Request) (key : string),
    In (ChatCreate {| api_key := Some "sk-from-dotenv" |} req)
       (trace (script Scenario.png_decoder Scenario.timing_out
                 ∅ {[ "OPENAI_API_KEY" := "sk-from-dotenv" ]} "__main__"
                 (Scenario.picked Scenario.valid_png)))
    /\ getenv (load_dotenv {[ "OPENAI_API_KEY" := "sk-from-dotenv" ]} ∅)
         "OPENAI_API_KEY" = Some key
    /\ String.eqb key "" = false
    /\ Some "sk-from-dotenv" = Some key
    /\ "__main__" = "__main__".
Proof.
  assert (Hin : exists req : Request,
            In (ChatCreate {| api_key := Some "sk-from-dotenv" |} req)
               (trace (script Scenario.png_decoder Scenario.timing_out
                         ∅ {[ "OPENAI_API_KEY" := "sk-from-dotenv" ]}
                         "__main__"
                         (Scenario.picked Scenario.valid_png)))).
  { eexists. vm_compute. do 8 right. left. reflexivity. }
  destruct Hin as (req & Hin). exists req.
  destruct (requests_carry_the_credential _ _ _ _ _ _ _ _ Hin)
    as (key & Hk).
  exists key. split; [exact Hin | exact Hk].
Defined.

(** X19. A credential that is set but empty counts as missing: the script
    shows the configuration error and halts before the client is built. *)
Theorem empty_credential_halts
  (Image_open : list byte -> pyexc + Image)
  (remote : OpenAI -> Request -> pyexc + Response)
  (environ dotenv : gmap string string) (module_name : string)
  (ui : Widgets) :
  getenv (load_dotenv dotenv environ) "OPENAI_API_KEY" = Some "" ->
  script Image_open remote environ dotenv module_name ui
  = (Raised StopScript, [UiError Texts.key_missing; UiStop]).
Proof.
  intros H. apply script_stops_without_key. rewrite H. reflexivity.
Qed.

Lemma empty_credential_halts_empty_value :
  script Scenario.png_decoder (Scenario.replying (Some Scenario.no_issue))
    {[ "OPENAI_API_KEY" := "" ]} ∅ "__main__"
    (Scenario.picked Scenario.valid_png)
  = (Raised StopScript, [UiError Texts.key_missing; UiStop]).
Proof.
  apply (empty_credential_halts Scenario.png_decoder
           (Scenario.replying (Some Scenario.no_issue))
           {[ "OPENAI_API_KEY" := "" ]} ∅ "__main__"
           (Scenario.picked Scenario.valid_png)).
  reflexivity.
Defined.
